(** * flask_pydantic_spec.utils: a shallow embedding and its properties

    The module [flask_pydantic_spec/utils.py] derives the pieces of an
    OpenAPI operation object from the attributes that the validation
    decorator attaches to a view function.  Every function of that module
    is embedded below as a Rocq function of the same name:

    - Python dictionaries used as maps are [gmap string _];
      dictionaries whose iteration order is observed ([properties]) are
      association lists;
    - a view function is the result of [inspect.getdoc] together with the
      dictionary of the attributes set on it; [hasattr]/[getattr] are
      lookups in that dictionary;
    - a raised exception is the [Raise] case of [result];
    - the accumulator of [parse_params] is a Python list mutated in place:
      the embedding threads it as a state, so that what was appended before
      an exception is still visible afterwards;
    - [logger.info] appends to an explicit log. *)

From Stdlib Require Import ZArith Ascii String.
From stdpp Require Import gmap strings list fin_maps pretty.

Local Open Scope Z_scope.

(** ** Python values *)

(** Exceptions the module can raise. *)
Inductive exn : Type :=
| TypeError
| AttributeError
| KeyError.

(** The outcome of evaluating a Python expression. *)
Inductive result (A : Type) : Type :=
| Ok (a : A)
| Raise (e : exn).
Arguments Ok {A} a.
Arguments Raise {A} e.

#[global] Instance result_ret : MRet result := @Ok.

#[global] Instance result_bind : MBind result := λ A B k r,
  match r with
  | Ok a => k a
  | Raise e => Raise e
  end.

(** JSON-like data: the [Any] of the type annotations (schema fragments,
    response entries, error lists). *)
#[warnings="-register-all"]
Inductive Json : Type :=
| JNull
| JBool (b : bool)
| JInt (z : Z)
| JStr (s : string)
| JList (l : list Json)
| JDict (d : list (string * Json)).

(** The objects that can be attached to a view function.

    - [PyNone]: [None];
    - [PyClass n bm]: a class object whose [__name__] is [n]; [bm] tells
      whether it is a subclass of [pydantic.BaseModel];
    - [PyRequestBase spec hm]: an instance of [RequestBase]; [spec] is what
      its [generate_spec()] returns and [hm] what its [has_model()] returns;
    - [PyResponse spec hm]: a response container, with the same two methods;
    - [PyObject]: an instance of any other class: not a class itself, and
      without [__name__], [generate_spec] or [has_model]. *)
Inductive PyObj : Type :=
| PyNone
| PyClass (name : string) (base_model : bool)
| PyRequestBase (spec : gmap string Json) (hm : bool)
| PyResponse (spec : gmap string Json) (hm : bool)
| PyObject.

(** [obj.__name__] *)
Definition dunder_name (obj : PyObj) : result string :=
  match obj with
  | PyClass n _ => Ok n
  | _ => Raise AttributeError
  end.

(** [isinstance(obj, RequestBase)] *)
Definition isinstance_RequestBase (obj : PyObj) : bool :=
  match obj with
  | PyRequestBase _ _ => true
  | _ => false
  end.

(** [issubclass(obj, BaseModel)]: a [TypeError] when [obj] is not a class. *)
Definition issubclass_BaseModel (obj : PyObj) : result bool :=
  match obj with
  | PyClass _ bm => Ok bm
  | _ => Raise TypeError
  end.

(** [obj.generate_spec()] *)
Definition generate_spec (obj : PyObj) : result (gmap string Json) :=
  match obj with
  | PyRequestBase spec _ => Ok spec
  | PyResponse spec _ => Ok spec
  | _ => Raise AttributeError
  end.

(** [obj.has_model()] *)
Definition obj_has_model (obj : PyObj) : result bool :=
  match obj with
  | PyRequestBase _ hm => Ok hm
  | PyResponse _ hm => Ok hm
  | _ => Raise AttributeError
  end.

(** A view function: the text [inspect.getdoc] returns for it ([None] when
    it has no docstring) and the attributes set on it. *)
Record Callable : Type := {
  func_name : string;
  getdoc : option string;
  attrs : gmap string PyObj;
}.

Definition hasattr (func : Callable) (name : string) : bool :=
  bool_decide (is_Some (attrs func !! name)).

(** [getattr(func, name)] for an attribute known to be there; the
    [AttributeError] of a missing one is never reached in this module, which
    guards every [getattr] by [hasattr]. *)
Definition getattr (func : Callable) (name : string) : result PyObj :=
  match attrs func !! name with
  | Some obj => Ok obj
  | None => Raise AttributeError
  end.

(** [setattr(func, name, obj)], as the decorator does it. *)
Definition setattr (func : Callable) (name : string) (obj : PyObj) : Callable :=
  {| func_name := func_name func; getdoc := getdoc func;
     attrs := <[name := obj]> (attrs func) |}.

(** ** Strings

    A Python [str] is embedded as a [string] whose characters are the code
    points below 256. *)

Definition newline : ascii := Ascii.ascii_of_nat 10.

(** [str.isspace] on one character, for the code points below 256:
    TAB, LF, VT, FF, CR, FS, GS, RS, US, SPACE, NEL and NBSP. *)
Definition py_isspace (c : ascii) : bool :=
  let n := N_of_ascii c in
  ((9 <=? n) && (n <=? 13) || (28 <=? n) && (n <=? 32)
   || (n =? 133) || (n =? 160))%N.

(** [s.split("\n", 1)]: the text before the first line feed and, when there
    is a line feed, the text after it.  The Python list has one element in
    the first case and two in the second. *)
Fixpoint split_nl_1 (s : string) : string * option string :=
  match s with
  | EmptyString => (EmptyString, None)
  | String c rest =>
      if Ascii.eqb c newline then (EmptyString, Some rest)
      else let '(before, after) := split_nl_1 rest in (String c before, after)
  end.

(** [s.lstrip()] *)
Fixpoint lstrip (s : string) : string :=
  match s with
  | EmptyString => EmptyString
  | String c rest => if py_isspace c then lstrip rest else s
  end.

(** [s.rstrip()] *)
Fixpoint rstrip (s : string) : string :=
  match s with
  | EmptyString => EmptyString
  | String c rest =>
      match rstrip rest with
      | EmptyString => if py_isspace c then EmptyString else String c EmptyString
      | rest' => String c rest'
      end
  end.

(** [s.strip()] *)
Definition strip (s : string) : string := rstrip (lstrip s).

(** ** [parse_comments] *)

Definition parse_comments (func : Callable) : option string * option string :=
  match getdoc func with
  | None => (None, None)
  | Some doc =>
      match split_nl_1 doc with
      | (summary, None) => (Some summary, None)
      | (summary, Some rest) => (Some summary, Some (strip rest))
      end
  end.

(** ** [parse_request] *)

Section RequestSpec.

(** [Request(model).generate_spec()] for the model class named [model]:
    the default request adapter is defined in [types.py]; what it
    generates is a parameter here. *)
Variable Request_generate_spec : string → gmap string Json.

Definition parse_request (func : Callable) : result (gmap string Json) :=
  if hasattr func "body" then
    let request_body := default PyNone (attrs func !! "body") in
    if isinstance_RequestBase request_body then
      generate_spec request_body
    else
      is_model ← issubclass_BaseModel request_body;
      if is_model : bool then
        model ← dunder_name request_body;
        Ok (Request_generate_spec model)
      else Ok ∅
  else Ok ∅.

End RequestSpec.

(** ** [parse_params] *)

(** One entry of the [parameters] list: the dictionary with the keys
    [name], [in], [schema] and [required]. *)
Record Descriptor : Type := {
  name : string;
  in_ : string;
  schema : Json;
  required : bool;
}.

(** One entry of the model registry: [properties] in the iteration order of
    the dictionary, and [required]; either key may be missing. *)
Record ModelSchema : Type := {
  properties : option (list (string * Json));
  required_names : option (list string);
}.

(** [d[key]] *)
Definition getitem {A} (d : gmap string A) (key : string) : result A :=
  match d !! key with
  | Some a => Ok a
  | None => Raise KeyError
  end.

(** [schema["properties"]] *)
Definition get_properties (m : ModelSchema) : result (list (string * Json)) :=
  match properties m with
  | Some props => Ok props
  | None => Raise KeyError
  end.

(** [name in schema.get("required", [])] *)
Definition is_required (m : ModelSchema) (n : string) : bool :=
  bool_decide (n ∈ default [] (required_names m)).

(** Computations over the accumulator [params]: the list as it is when the
    computation stops, and the outcome. *)
Definition Acc (A : Type) : Type :=
  list Descriptor → list Descriptor * result A.

Definition acc_ret {A} (a : A) : Acc A := λ params, (params, Ok a).

Definition acc_bind {A B} (m : Acc A) (k : A → Acc B) : Acc B := λ params,
  match m params with
  | (params', Ok a) => k a params'
  | (params', Raise e) => (params', Raise e)
  end.

Definition acc_lift {A} (r : result A) : Acc A := λ params, (params, r).

(** [params.append(d)] *)
Definition acc_append (d : Descriptor) : Acc unit := λ params,
  (params ++ [d], Ok ()).

(** The list [params] itself, for [return params]. *)
Definition acc_get : Acc (list Descriptor) := λ params, (params, Ok params).

Notation "'do' x <- m ; k" := (acc_bind m (λ x, k))
  (at level 10, x name, m at level 100, k at level 200, only parsing).
Notation "m ;; k" := (acc_bind m (λ _, k))
  (at level 100, k at level 200, right associativity, only parsing).

(** [for name, schema in props: params.append({...})] *)
Fixpoint append_each (location : string) (m : ModelSchema)
    (props : list (string * Json)) : Acc unit :=
  match props with
  | [] => acc_ret ()
  | (n, s) :: props' =>
      acc_append {| name := n; in_ := location; schema := s;
                    required := is_required m n |} ;;
      append_each location m props'
  end.

(** The body that [parse_params] repeats for [query], [headers] and
    [cookies]: [attr] is the attribute read and [location] the value of
    the key [in]. *)
Definition params_of (func : Callable) (attr location : string)
    (models : gmap string ModelSchema) : Acc unit :=
  if hasattr func attr then
    do obj <- acc_lift (getattr func attr);
    do model_name <- acc_lift (dunder_name obj);
    do m <- acc_lift (getitem models model_name);
    do props <- acc_lift (get_properties m);
    append_each location m props
  else acc_ret ().

Definition parse_params (func : Callable) (params : list Descriptor)
    (models : gmap string ModelSchema)
    : list Descriptor * result (list Descriptor) :=
  (params_of func "query" "query" models ;;
   params_of func "headers" "header" models ;;
   params_of func "cookies" "cookie" models ;;
   acc_get) params.

(** ** [has_model] and [parse_resp] *)

Definition has_model (func : Callable) : result bool :=
  if existsb (hasattr func) ["query"; "json"; "headers"] then Ok true
  else if hasattr func "resp" then
    resp ← getattr func "resp";
    hm ← obj_has_model resp;
    if hm : bool then Ok true else Ok false
  else Ok false.

(** [str(code)] *)
Definition str (code : Z) : string := pretty code.

(** [{"description": "Validation Error"}] *)
Definition validation_error : Json :=
  JDict [("description", JStr "Validation Error")].

Definition parse_resp (func : Callable) (code : Z) : result (gmap string Json) :=
  responses ← (if hasattr func "resp" then
                 resp ← getattr func "resp"; generate_spec resp
               else Ok ∅);
  if bool_decide (is_Some (responses !! str code)) then Ok responses
  else
    hm ← has_model func;
    if hm : bool then Ok (<[str code := validation_error]> responses)
    else Ok responses.

(** ** [parse_name] *)

Definition parse_name (func : Callable) : string := func_name func.

(** ** The default hooks *)

(** One call of [logger.info(msg, extra={...})]. *)
Record LogRecord : Type := {
  msg : string;
  spectree_model : string;
  spectree_validation : list Json;
}.

(** The validation-error argument of a hook, annotated [Any]:

    - [ErrNone]: [None];
    - [ErrFalsy]: another object that is false in a condition;
    - [ErrValidation n errs]: a validation error whose [model.__name__] is
      [n] and whose [errors()] returns [errs];
    - [ErrTruthy]: any other object that is true in a condition; it has no
      attribute [model]. *)
Inductive ErrArg : Type :=
| ErrNone
| ErrFalsy
| ErrValidation (model_name : string) (errors : list Json)
| ErrTruthy.

(** [if err:] *)
Definition truthy (err : ErrArg) : bool :=
  match err with
  | ErrNone | ErrFalsy => false
  | ErrValidation _ _ | ErrTruthy => true
  end.

(** What a hook leaves behind: the request and the response objects as they
    are when it returns, the log, and the outcome. *)
Record HookRun (Req Resp : Type) : Type := {
  run_req : Req;
  run_resp : Resp;
  run_log : list LogRecord;
  run_outcome : result unit;
}.
Arguments run_req {Req Resp} _.
Arguments run_resp {Req Resp} _.
Arguments run_log {Req Resp} _.
Arguments run_outcome {Req Resp} _.

(** The body shared by the two hooks, which differ by the message only. *)
Definition log_validation_error {Req Resp : Type} (message : string)
    (req : Req) (resp : Resp) (err : ErrArg) (log : list LogRecord)
    : HookRun Req Resp :=
  if truthy err then
    match err with
    | ErrValidation n errs =>
        {| run_req := req; run_resp := resp;
           run_log := (log ++ [{| msg := message; spectree_model := n;
                                  spectree_validation := errs |}])%list;
           run_outcome := Ok () |}
    | _ =>
        {| run_req := req; run_resp := resp; run_log := log;
           run_outcome := Raise AttributeError |}
    end
  else
    {| run_req := req; run_resp := resp; run_log := log;
       run_outcome := Ok () |}.

Definition default_before_handler {Req Resp Inst : Type}
    (req : Req) (resp : Resp) (req_validation_error : ErrArg)
    (instance : Inst) (log : list LogRecord) : HookRun Req Resp :=
  log_validation_error "Validation Error" req resp req_validation_error log.

Definition default_after_handler {Req Resp Inst : Type}
    (req : Req) (resp : Resp) (resp_validation_error : ErrArg)
    (instance : Inst) (log : list LogRecord) : HookRun Req Resp :=
  log_validation_error "500 Response Validation Error" req resp
    resp_validation_error log.

(** ** [parse_multi_dict] *)

(** A [werkzeug] [MultiDict] is a dictionary from keys to lists of values;
    [to_dict(flat=False)] returns that dictionary. *)
Record MultiDict : Type := {
  lists : gmap string (list Json);
}.

Definition to_dict_flat_false (input : MultiDict) : gmap string (list Json) :=
  lists input.

(** What the body of the loop stores under [key]. *)
Definition flatten_value (value : list Json) : Json :=
  if (length value =? 1)%nat then default JNull (head value)
  else JList value.

Definition parse_multi_dict (input : MultiDict) : gmap string Json :=
  map_fold (λ key value result, <[key := flatten_value value]> result)
    ∅ (to_dict_flat_false input).

(** * The vocabulary of the properties, and example inputs *)

(** The characters of a string. *)
Definition chars (s : string) : list ascii := list_ascii_of_string s.

(** Every character of [s] is white space. *)
Definition all_space (s : string) : Prop :=
  Forall (λ c, py_isspace c = true) (chars s).

(** [t] is [s] with its leading and trailing white space removed: [s] is
    [t] between two runs of white space, and [t] neither begins nor ends
    with a white-space character. *)
Definition trimmed_of (s t : string) : Prop :=
  (∃ l r, s = l +:+ t +:+ r ∧ all_space l ∧ all_space r)
  ∧ (∀ c t', t = String c t' → py_isspace c = false)
  ∧ (∀ c t', t = t' +:+ String c "" → py_isspace c = false).

(** A view function with the given docstring and no attribute. *)
Definition documented (doc : option string) : Callable :=
  {| func_name := "view"; getdoc := doc; attrs := ∅ |}.

(** The view function obtained by setting the given attributes, first to
    last, on an undocumented function. *)
Definition view (attributes : list (string * PyObj)) : Callable :=
  foldl (λ func '(n, obj), setattr func n obj) (documented None) attributes.

(** The response entry [{"description": "OK"}]. *)
Definition ok_entry : Json := JDict [("description", JStr "OK")].

(** A response container that declares the status code 200 only. *)
Definition resp_200 : PyObj := PyResponse {["200" := ok_entry]} true.

(** A view function with a body model only, as
    [@api.validate(body=Body)] leaves it. *)
Definition body_only : Callable := view [("body", PyClass "Body" true)].

(** The descriptors of one model, in the order of its properties. *)
Definition descriptors (location : string) (m : ModelSchema)
    (props : list (string * Json)) : list Descriptor :=
  map (λ '(n, s), {| name := n; in_ := location; schema := s;
                     required := is_required m n |}) props.

(** The five ways in which the body for one attribute can end: nothing
    attached; the descriptors appended; or an exception, with the
    accumulator as it was. *)
Inductive params_of_spec (func : Callable) (attr location : string)
    (models : gmap string ModelSchema) (params : list Descriptor)
    : list Descriptor * result unit → Prop :=
| params_absent :
    attrs func !! attr = None →
    params_of_spec func attr location models params (params, Ok ())
| params_appended obj n m props :
    attrs func !! attr = Some obj → dunder_name obj = Ok n →
    models !! n = Some m → properties m = Some props →
    params_of_spec func attr location models params
      ((params ++ descriptors location m props)%list, Ok ())
| params_no_name obj :
    attrs func !! attr = Some obj → dunder_name obj = Raise AttributeError →
    params_of_spec func attr location models params
      (params, Raise AttributeError)
| params_unregistered obj n :
    attrs func !! attr = Some obj → dunder_name obj = Ok n →
    models !! n = None →
    params_of_spec func attr location models params (params, Raise KeyError)
| params_no_properties obj n m :
    attrs func !! attr = Some obj → dunder_name obj = Ok n →
    models !! n = Some m → properties m = None →
    params_of_spec func attr location models params (params, Raise KeyError).

(** A registry with the three models of the examples. *)
Definition registry : gmap string ModelSchema :=
  <["Query" := {| properties := Some [("a", JStr "integer");
                                      ("b", JStr "string")];
                  required_names := Some ["a"] |}]>
  (<["Headers" := {| properties := Some [("lang", JStr "string")];
                     required_names := None |}]>
  (<["Cookies" := {| properties := Some [("pub", JStr "string")];
                     required_names := Some ["pub"] |}]> ∅)).

(** In [l], every descriptor with location [loc1] comes before every
    descriptor with location [loc2]. *)
Definition precedes (loc1 loc2 : string) (l : list Descriptor) : Prop :=
  ∀ i j d1 d2,
    l !! i = Some d1 → l !! j = Some d2 →
    in_ d1 = loc1 → in_ d2 = loc2 → (i < j)%nat.

(** ["query"] before ["header"] before ["cookie"]. *)
Definition location_order (l : list Descriptor) : Prop :=
  precedes "query" "header" l ∧ precedes "header" "cookie" l.

(** The view function of the examples, with its three models. *)
Definition three_models : Callable :=
  view [("cookies", PyClass "Cookies" true);
        ("headers", PyClass "Headers" true);
        ("query", PyClass "Query" true)].

(** A cookie descriptor that the caller put in the accumulator. *)
Definition session_cookie : Descriptor :=
  {| name := "session"; in_ := "cookie"; schema := JStr "string";
     required := false |}.

(** The container with ["x"] given once and ["y"] given twice. *)
Definition x_once_y_twice : MultiDict :=
  {| lists := <["x" := [JStr "1"]]>
                (<["y" := [JStr "1"; JStr "2"]]> ∅) |}.

(** What the body for [attr] leaves in the accumulator: the descriptors of
    the model attached under [attr], in the order of its properties, and
    nothing when no model is attached or its schema cannot be found. *)
Definition appended_by (func : Callable) (attr location : string)
    (models : gmap string ModelSchema) : list Descriptor :=
  match attrs func !! attr with
  | Some obj =>
      match dunder_name obj with
      | Ok n =>
          match models !! n with
          | Some m => descriptors location m (default [] (properties m))
          | None => []
          end
      | Raise _ => []
      end
  | None => []
  end.

(** The attributes that [parse_resp] and [has_model] read. *)
Definition resp_attributes : list string :=
  ["query"; "json"; "headers"; "resp"].

(** A value that is not a list, such as the strings of a query string. *)
Definition scalar (v : Json) : Prop :=
  match v with
  | JList _ => False
  | _ => True
  end.

(** Every value of the container is a scalar. *)
Definition scalar_values (input : MultiDict) : Prop :=
  ∀ key values, lists input !! key = Some values → Forall scalar values.

(** A registry in which the query model and the headers model both have
    a property [lang], and a model [Bare] has no [properties]. *)
Definition registry_lang : gmap string ModelSchema :=
  <["Query" := {| properties := Some [("lang", JStr "string");
                                      ("page", JStr "integer")];
                  required_names := Some ["page"] |}]>
  (<["Headers" := {| properties := Some [("lang", JStr "string")];
                     required_names := None |}]>
  (<["Bare" := {| properties := None; required_names := None |}]> ∅)).

(** * Properties *)

(** ** Strings: what [split] and [strip] compute *)

Lemma append_nil (s : string) : "" +:+ s = s.
Proof. reflexivity. Qed.

Lemma append_cons (c : ascii) (a b : string) :
  String c a +:+ b = String c (a +:+ b).
Proof. reflexivity. Qed.

Lemma append_assoc (a b c : string) : (a +:+ b) +:+ c = a +:+ (b +:+ c).
Proof.
  induction a as [|x a IH]; [done|]. by rewrite !append_cons, IH.
Qed.

Lemma split_nl_1_none (s : string) :
  newline ∉ chars s → split_nl_1 s = (s, None).
Proof.
  induction s as [|c s IH]; simpl; intros Hnl; [done|].
  apply not_elem_of_cons in Hnl as [Hc Hs].
  destruct (Ascii.eqb_spec c newline) as [->|_]; [done|].
  by rewrite (IH Hs).
Qed.

Lemma split_nl_1_some (a b : string) :
  newline ∉ chars a → split_nl_1 (a +:+ String newline b) = (a, Some b).
Proof.
  induction a as [|c a IH]; intros Hnl.
  - done.
  - apply not_elem_of_cons in Hnl as [Hc Ha].
    rewrite append_cons. simpl.
    destruct (Ascii.eqb_spec c newline) as [->|_]; [done|].
    by rewrite (IH Ha).
Qed.

Lemma all_space_nil : all_space "".
Proof. constructor. Qed.

Lemma all_space_cons (c : ascii) (s : string) :
  py_isspace c = true → all_space s → all_space (String c s).
Proof. intros Hc Hs. by apply Forall_cons. Qed.

Lemma lstrip_prefix (s : string) :
  ∃ l, s = l +:+ lstrip s ∧ all_space l.
Proof.
  induction s as [|c s [l [Hs Hl]]]; simpl.
  - exists "". split; [done|apply all_space_nil].
  - destruct (py_isspace c) eqn:Hc.
    + exists (String c l). split; [|by apply all_space_cons].
      rewrite append_cons. by f_equal.
    + exists "". split; [done|apply all_space_nil].
Qed.

Lemma lstrip_head (s t : string) (c : ascii) :
  lstrip s = String c t → py_isspace c = false.
Proof.
  induction s as [|a s IH]; simpl; [done|].
  destruct (py_isspace a) eqn:Ha; [done|]. by intros [= <- _].
Qed.

Lemma rstrip_suffix (s : string) :
  ∃ r, s = rstrip s +:+ r ∧ all_space r.
Proof.
  induction s as [|c s [r [Hs Hr]]]; simpl.
  - exists "". split; [done|apply all_space_nil].
  - destruct (rstrip s) as [|c' x] eqn:Hx.
    + rewrite append_nil in Hs. subst r. destruct (py_isspace c) eqn:Hc.
      * exists (String c s). split; [done|by apply all_space_cons].
      * by exists s.
    + exists r. split; [|done]. rewrite append_cons. by f_equal.
Qed.

Lemma rstrip_last (s t : string) (c : ascii) :
  rstrip s = t +:+ String c "" → py_isspace c = false.
Proof.
  revert t. induction s as [|a s IH]; intros t; simpl.
  - by destruct t.
  - destruct (rstrip s) as [|c' x] eqn:Hx.
    + destruct (py_isspace a) eqn:Ha; [by destruct t|].
      destruct t as [|b t]; [by intros [= <-]|].
      rewrite append_cons. intros [= _ Ht]. by destruct t.
    + destruct t as [|b t]; [done|].
      rewrite append_cons. intros [= _ Ht]. by apply (IH t).
Qed.

Lemma strip_trimmed (s : string) : trimmed_of s (strip s).
Proof.
  unfold strip.
  destruct (lstrip_prefix s) as [l [Hs Hl]].
  destruct (rstrip_suffix (lstrip s)) as [r [Hm Hr]].
  split; [|split].
  - exists l, r. split; [|done]. by rewrite <- Hm.
  - intros c t' Ht. rewrite Ht, append_cons in Hm.
    by apply (lstrip_head s (t' +:+ r) c).
  - intros c t'. apply rstrip_last.
Qed.

(** ** [parse_comments] *)

Example parse_comments_three_lines :
  parse_comments
    (documented (Some ("Summary line" +:+ String newline
                       ("Detail one" +:+ String newline "Detail two"))))
  = (Some "Summary line",
     Some ("Detail one" +:+ String newline "Detail two")).
Proof. reflexivity. Qed.

Example parse_comments_solo_line :
  parse_comments (documented (Some "Solo line")) = (Some "Solo line", None).
Proof. reflexivity. Qed.

Example parse_comments_no_doc :
  parse_comments (documented None) = (None, None).
Proof. reflexivity. Qed.

(** C7.  [parse_comments] returns [(None, None)] when the function has no
    documentation text; the whole text and [None] when the text has no line
    feed; otherwise the text before the first line feed and the remainder
    stripped, that is, the remainder without its leading and trailing white
    space. *)
Theorem parse_comments_cases (func : Callable) :
  (getdoc func = None → parse_comments func = (None, None))
  ∧ (∀ doc, getdoc func = Some doc → newline ∉ chars doc →
       parse_comments func = (Some doc, None))
  ∧ (∀ summary rest,
       getdoc func = Some (summary +:+ String newline rest) →
       newline ∉ chars summary →
       parse_comments func = (Some summary, Some (strip rest))
       ∧ trimmed_of rest (strip rest)).
Proof.
  unfold parse_comments. split; [|split].
  - by intros ->.
  - intros doc -> Hnl. by rewrite split_nl_1_none.
  - intros summary rest -> Hnl. rewrite split_nl_1_some by done.
    split; [done|apply strip_trimmed].
Qed.

Lemma parse_comments_cases_witness :
  parse_comments
    (documented (Some ("Summary" +:+ String newline "  Detail one  ")))
  = (Some "Summary", Some "Detail one").
Proof.
  pose proof (parse_comments_cases
    (documented (Some ("Summary" +:+ String newline "  Detail one  "))))
    as (_ & _ & H).
  destruct (H "Summary" "  Detail one  ") as [Heq _].
  - reflexivity.
  - vm_compute. intros Hin.
    repeat (apply elem_of_cons in Hin as [Hin|Hin]; [discriminate Hin|]).
    by apply elem_of_nil in Hin.
  - exact Heq.
Defined.

(** ** Attributes *)

Lemma hasattr_Some (func : Callable) (n : string) (obj : PyObj) :
  attrs func !! n = Some obj → hasattr func n = true.
Proof. intros H. unfold hasattr. rewrite H. by apply bool_decide_eq_true. Qed.

Lemma hasattr_None (func : Callable) (n : string) :
  attrs func !! n = None → hasattr func n = false.
Proof.
  intros H. unfold hasattr. rewrite H.
  apply bool_decide_eq_false. by intros [? ?].
Qed.

Lemma hasattr_true (func : Callable) (n : string) :
  hasattr func n = true → ∃ obj, attrs func !! n = Some obj.
Proof. unfold hasattr. intros [obj ?]%bool_decide_eq_true. by exists obj. Qed.

Lemma getattr_Some (func : Callable) (n : string) (obj : PyObj) :
  attrs func !! n = Some obj → getattr func n = Ok obj.
Proof. intros H. unfold getattr. by rewrite H. Qed.

(** The order in which two different attributes are set does not matter. *)
Lemma setattr_commute (func : Callable) (n1 n2 : string) (o1 o2 : PyObj) :
  n1 ≠ n2 →
  setattr (setattr func n1 o1) n2 o2 = setattr (setattr func n2 o2) n1 o1.
Proof.
  intros Hne. unfold setattr. simpl. f_equal. by apply insert_insert_ne.
Qed.

(** So [parse_params] cannot tell in which order they were set. *)
Lemma parse_params_attach_order (func : Callable) (n1 n2 : string)
    (o1 o2 : PyObj) (params : list Descriptor)
    (models : gmap string ModelSchema) :
  n1 ≠ n2 →
  parse_params (setattr (setattr func n1 o1) n2 o2) params models
  = parse_params (setattr (setattr func n2 o2) n1 o1) params models.
Proof. intros Hne. by rewrite setattr_commute. Qed.

(** ** [has_model] and [parse_resp] *)

Lemma has_model_query (func : Callable) :
  hasattr func "query" = true → has_model func = Ok true.
Proof. intros H. unfold has_model. simpl. by rewrite H. Qed.

Lemma has_model_headers (func : Callable) :
  hasattr func "headers" = true → has_model func = Ok true.
Proof.
  intros H. unfold has_model. simpl. rewrite H.
  by rewrite !orb_true_r.
Qed.

(** Without [query], [json], [headers] and [resp] there is no model,
    whatever else is attached. *)
Lemma has_model_none (func : Callable) :
  attrs func !! "query" = None → attrs func !! "json" = None →
  attrs func !! "headers" = None → attrs func !! "resp" = None →
  has_model func = Ok false.
Proof.
  intros Hq Hj Hh Hr. unfold has_model. simpl.
  by rewrite !hasattr_None.
Qed.

Lemma parse_resp_none (func : Callable) (code : Z) :
  attrs func !! "query" = None → attrs func !! "json" = None →
  attrs func !! "headers" = None → attrs func !! "resp" = None →
  parse_resp func code = Ok ∅.
Proof.
  intros Hq Hj Hh Hr. unfold parse_resp.
  rewrite (hasattr_None _ _ Hr). simpl.
  rewrite lookup_empty, bool_decide_eq_false_2 by (by intros [? ?]).
  by rewrite has_model_none.
Qed.

(** With [resp] attached, [parse_resp] starts from what the container
    generates. *)
Lemma parse_resp_explicit (func : Callable) (code : Z) (resp : PyObj)
    (spec : gmap string Json) (entry : Json) :
  attrs func !! "resp" = Some resp → generate_spec resp = Ok spec →
  spec !! str code = Some entry →
  parse_resp func code = Ok spec.
Proof.
  intros Hr Hs He. unfold parse_resp.
  rewrite (hasattr_Some _ _ _ Hr), (getattr_Some _ _ _ Hr). simpl.
  rewrite Hs. simpl. by rewrite He, bool_decide_eq_true_2.
Qed.

Lemma parse_resp_synthetic (func : Callable) (code : Z) (resp : PyObj)
    (spec : gmap string Json) :
  attrs func !! "resp" = Some resp → generate_spec resp = Ok spec →
  spec !! str code = None → has_model func = Ok true →
  parse_resp func code = Ok (<[str code := validation_error]> spec).
Proof.
  intros Hr Hs He Hm. unfold parse_resp.
  rewrite (hasattr_Some _ _ _ Hr), (getattr_Some _ _ _ Hr). simpl.
  rewrite Hs. simpl.
  rewrite He, bool_decide_eq_false_2 by (by intros [? ?]).
  by rewrite Hm.
Qed.

(** C1.  When [resp] is attached and what it generates has no entry for
    [str(code)], and [query] or [headers] is attached, [parse_resp] returns
    the generated map with [{"description": "Validation Error"}] under
    [str(code)]; when the generated map has an entry for [str(code)],
    [parse_resp] returns the generated map as it is, so the explicit entry
    is the one returned. *)
Theorem parse_resp_validation_error (func : Callable) (code : Z)
    (resp : PyObj) (spec : gmap string Json) :
  attrs func !! "resp" = Some resp →
  generate_spec resp = Ok spec →
  (spec !! str code = None →
   hasattr func "query" = true ∨ hasattr func "headers" = true →
   ∃ responses,
     parse_resp func code = Ok responses
     ∧ responses !! str code = Some validation_error
     ∧ responses = <[str code := validation_error]> spec)
  ∧ (∀ entry, spec !! str code = Some entry →
     ∃ responses,
       parse_resp func code = Ok responses
       ∧ responses !! str code = Some entry
       ∧ responses = spec).
Proof.
  intros Hr Hs. split.
  - intros He Hm. exists (<[str code := validation_error]> spec).
    split; [|split; [apply lookup_insert_eq|done]].
    apply (parse_resp_synthetic _ _ resp); [done..|].
    destruct Hm; [by apply has_model_query|by apply has_model_headers].
  - intros entry He. exists spec. split; [|done].
    by apply (parse_resp_explicit _ _ resp _ entry).
Qed.

Lemma parse_resp_validation_error_witness :
  parse_resp (view [("query", PyClass "Query" true); ("resp", resp_200)]) 422
  = Ok (<["422" := validation_error]> {["200" := ok_entry]})
  ∧ parse_resp (view [("query", PyClass "Query" true); ("resp", resp_200)]) 200
  = Ok {["200" := ok_entry]}.
Proof.
  split.
  - destruct (parse_resp_validation_error
      (view [("query", PyClass "Query" true); ("resp", resp_200)]) 422
      resp_200 {["200" := ok_entry]}) as [H _]; [reflexivity..|].
    destruct H as (responses & -> & _ & ->); [reflexivity|by left|].
    reflexivity.
  - destruct (parse_resp_validation_error
      (view [("query", PyClass "Query" true); ("resp", resp_200)]) 200
      resp_200 {["200" := ok_entry]}) as [_ H]; [reflexivity..|].
    destruct (H ok_entry) as (responses & -> & _ & ->); reflexivity.
Defined.

(** C2.  On a view function whose only attribute is [body], a
    [pydantic.BaseModel] subclass, [has_model] returns [False], because it
    looks for an attribute [json], and [parse_resp] returns the empty map:
    no ["Validation Error"] entry is inserted. *)
Theorem has_model_misses_body :
  attrs body_only = {["body" := PyClass "Body" true]}
  ∧ has_model body_only = Ok false
  ∧ parse_resp body_only 422 = Ok ∅.
Proof.
  split; [reflexivity|]. split.
  - by apply has_model_none.
  - by apply parse_resp_none.
Qed.

(** C10.  On a view function that has [cookies] attached and none of
    [query], [headers], [body], [json] and [resp], [has_model] returns
    [False] and [parse_resp] returns the empty map, without a
    ["Validation Error"] entry, for every status code. *)
Theorem has_model_ignores_cookies (func : Callable) (code : Z) :
  is_Some (attrs func !! "cookies") →
  attrs func !! "query" = None → attrs func !! "headers" = None →
  attrs func !! "body" = None → attrs func !! "json" = None →
  attrs func !! "resp" = None →
  has_model func = Ok false
  ∧ parse_resp func code = Ok ∅
  ∧ (∀ responses, parse_resp func code = Ok responses →
       responses !! str code = None).
Proof.
  intros _ Hq Hh _ Hj Hr. split; [by apply has_model_none|].
  split; [by apply parse_resp_none|].
  intros responses. rewrite parse_resp_none by done.
  intros [= <-]. apply lookup_empty.
Qed.

Lemma has_model_ignores_cookies_witness :
  has_model (view [("cookies", PyClass "Cookies" true)]) = Ok false
  ∧ parse_resp (view [("cookies", PyClass "Cookies" true)]) 422 = Ok ∅.
Proof.
  destruct (has_model_ignores_cookies
    (view [("cookies", PyClass "Cookies" true)]) 422) as (H1 & H2 & _);
    [by eexists|reflexivity..|].
  by split.
Defined.

(** ** [parse_request] *)

Section RequestProperties.

Variable Request_generate_spec : string → gmap string Json.

(** A class that is not a model degrades to the empty mapping. *)
Lemma parse_request_other_class (func : Callable) (n : string) :
  attrs func !! "body" = Some (PyClass n false) →
  parse_request Request_generate_spec func = Ok ∅.
Proof.
  intros Hb. unfold parse_request.
  by rewrite (hasattr_Some _ _ _ Hb), Hb.
Qed.

(** An object that is neither an instance of [RequestBase] nor a class
    makes [issubclass] raise. *)
Lemma parse_request_not_a_class (func : Callable) (obj : PyObj) :
  attrs func !! "body" = Some obj →
  isinstance_RequestBase obj = false →
  (∀ n bm, obj ≠ PyClass n bm) →
  parse_request Request_generate_spec func = Raise TypeError.
Proof.
  intros Hb Hi Hc. unfold parse_request.
  rewrite (hasattr_Some _ _ _ Hb), Hb. simpl. rewrite Hi.
  destruct obj as [|n bm| | |]; try done. by destruct (Hc n bm).
Qed.

(** C3.  On a view function whose [body] attribute is [None],
    [parse_request] raises [TypeError] instead of returning the empty
    mapping; so it does when [body] is an instance of an unrelated class. *)
Theorem parse_request_body_None_raises :
  parse_request Request_generate_spec (view [("body", PyNone)])
  = Raise TypeError
  ∧ parse_request Request_generate_spec (view [("body", PyObject)])
  = Raise TypeError.
Proof.
  split.
  - by apply (parse_request_not_a_class _ PyNone).
  - by apply (parse_request_not_a_class _ PyObject).
Qed.

End RequestProperties.

(** ** [parse_params] *)

Lemma append_each_run (location : string) (m : ModelSchema)
    (props : list (string * Json)) (params : list Descriptor) :
  append_each location m props params
  = ((params ++ descriptors location m props)%list, Ok ()).
Proof.
  revert params. induction props as [|[n s] props IH]; intros params; simpl.
  - unfold acc_ret. by rewrite app_nil_r.
  - unfold acc_bind, acc_append. rewrite IH. by rewrite <- app_assoc.
Qed.

Lemma params_of_cases (func : Callable) (attr location : string)
    (models : gmap string ModelSchema) (params : list Descriptor) :
  params_of_spec func attr location models params
    (params_of func attr location models params).
Proof.
  unfold params_of, hasattr, getattr.
  destruct (attrs func !! attr) as [obj|] eqn:Hattr.
  - rewrite bool_decide_eq_true_2 by by eexists.
    unfold acc_bind, acc_lift.
    destruct (dunder_name obj) as [n|e] eqn:Hname.
    + unfold getitem. destruct (models !! n) as [m|] eqn:Hm.
      * unfold get_properties.
        destruct (properties m) as [props|] eqn:Hprops.
        -- rewrite append_each_run. by eapply params_appended.
        -- by eapply params_no_properties.
      * by eapply params_unregistered.
    + assert (e = AttributeError) as ->
        by (destruct obj; simpl in Hname; congruence).
      by eapply params_no_name.
  - rewrite bool_decide_eq_false_2 by (by intros [? ?]).
    by apply params_absent.
Qed.

(** Whatever happens, the body for one attribute only appends, and what it
    appends carries its location. *)
Lemma params_of_frame (func : Callable) (attr location : string)
    (models : gmap string ModelSchema) (params : list Descriptor) :
  ∃ new,
    (params_of func attr location models params).1 = (params ++ new)%list
    ∧ Forall (λ d, in_ d = location) new.
Proof.
  destruct (params_of_cases func attr location models params)
    as [?|obj n m props ????|obj ??|obj n ???|obj n m ????]; simpl.
  2: { exists (descriptors location m props). split; [done|].
       unfold descriptors. apply Forall_map, Forall_forall.
       by intros [??] _. }
  all: exists []; by rewrite app_nil_r.
Qed.

Lemma params_of_registered (func : Callable) (attr location : string)
    (models : gmap string ModelSchema) (params : list Descriptor)
    (obj : PyObj) (n : string) (m : ModelSchema)
    (props : list (string * Json)) :
  attrs func !! attr = Some obj → dunder_name obj = Ok n →
  models !! n = Some m → properties m = Some props →
  params_of func attr location models params
  = ((params ++ descriptors location m props)%list, Ok ()).
Proof.
  intros Hattr Hname Hm Hprops.
  destruct (params_of_cases func attr location models params); congruence.
Qed.

Lemma params_of_missing (func : Callable) (attr location : string)
    (models : gmap string ModelSchema) (params : list Descriptor)
    (obj : PyObj) (n : string) :
  attrs func !! attr = Some obj → dunder_name obj = Ok n →
  models !! n = None →
  params_of func attr location models params = (params, Raise KeyError).
Proof.
  intros Hattr Hname Hm.
  destruct (params_of_cases func attr location models params); congruence.
Qed.

(** The exception of a body is a [KeyError] unless the attached object has
    no [__name__]. *)
Lemma params_of_raise (func : Callable) (attr location : string)
    (models : gmap string ModelSchema) (params params' : list Descriptor)
    (e : exn) :
  params_of func attr location models params = (params', Raise e) →
  params' = params
  ∧ (e = KeyError
     ∨ ∃ obj, attrs func !! attr = Some obj
              ∧ dunder_name obj = Raise AttributeError).
Proof.
  destruct (params_of_cases func attr location models params);
    intros [= <- <-] || intros [= <-]; split; eauto.
Qed.

Lemma params_of_absent (func : Callable) (attr location : string)
    (models : gmap string ModelSchema) (params : list Descriptor) :
  attrs func !! attr = None →
  params_of func attr location models params = (params, Ok ()).
Proof.
  intros Hattr.
  destruct (params_of_cases func attr location models params); congruence.
Qed.

(** [parse_params] runs the three bodies in turn and stops at the first
    exception. *)
Lemma parse_params_unfold (func : Callable) (params : list Descriptor)
    (models : gmap string ModelSchema) :
  parse_params func params models =
  match params_of func "query" "query" models params with
  | (p1, Raise e) => (p1, Raise e)
  | (p1, Ok _) =>
      match params_of func "headers" "header" models p1 with
      | (p2, Raise e) => (p2, Raise e)
      | (p2, Ok _) =>
          match params_of func "cookies" "cookie" models p2 with
          | (p3, Raise e) => (p3, Raise e)
          | (p3, Ok _) => (p3, Ok p3)
          end
      end
  end.
Proof. reflexivity. Qed.

(** What [parse_params] returns is the accumulator it leaves behind. *)
Lemma parse_params_returns_accumulator (func : Callable)
    (params r : list Descriptor) (models : gmap string ModelSchema) :
  (parse_params func params models).2 = Ok r →
  r = (parse_params func params models).1.
Proof.
  rewrite parse_params_unfold.
  destruct (params_of func "query" "query" models params) as [p1 [[]|?]];
    [|done].
  destruct (params_of func "headers" "header" models p1) as [p2 [[]|?]];
    [|done].
  destruct (params_of func "cookies" "cookie" models p2) as [p3 [[]|?]];
    [|done].
  simpl. congruence.
Qed.

(** After the [query] body, only [header] and [cookie] descriptors are
    appended. *)
Lemma parse_params_after_query (func : Callable)
    (params p1 : list Descriptor) (models : gmap string ModelSchema) :
  params_of func "query" "query" models params = (p1, Ok ()) →
  ∃ rest,
    (parse_params func params models).1 = (p1 ++ rest)%list
    ∧ Forall (λ d, in_ d = "header" ∨ in_ d = "cookie") rest.
Proof.
  intros Hq. rewrite parse_params_unfold, Hq.
  destruct (params_of_frame func "headers" "header" models p1)
    as (nh & Hh & Fh).
  destruct (params_of func "headers" "header" models p1) as [p2 [[]|e]];
    simpl in Hh; subst p2.
  - destruct (params_of_frame func "cookies" "cookie" models (p1 ++ nh))
      as (nc & Hc & Fc).
    destruct (params_of func "cookies" "cookie" models (p1 ++ nh))
      as [p3 [[]|e]]; simpl in Hc; subst p3; simpl.
    all: exists (nh ++ nc)%list; split; [by rewrite app_assoc|].
    all: apply Forall_app; split; eapply Forall_impl; eauto.
  - exists nh. split; [done|]. eapply Forall_impl; eauto.
Qed.

Lemma parse_params_query_only (func : Callable) (params : list Descriptor)
    (models : gmap string ModelSchema) (obj : PyObj) (n : string)
    (m : ModelSchema) (props : list (string * Json)) :
  attrs func !! "query" = Some obj → dunder_name obj = Ok n →
  models !! n = Some m → properties m = Some props →
  attrs func !! "headers" = None → attrs func !! "cookies" = None →
  parse_params func params models
  = ((params ++ descriptors "query" m props)%list,
     Ok (params ++ descriptors "query" m props)%list).
Proof.
  intros Hq Hn Hm Hp Hh Hc. rewrite parse_params_unfold.
  rewrite (params_of_registered _ _ _ _ _ obj n m props) by done.
  by rewrite !params_of_absent.
Qed.

(** C5.  When the model attached as [query] is registered with the
    properties [a] and [b], in this order, of which [a] alone is required,
    [parse_params] appends to the accumulator the descriptor of [a], with
    location ["query"], the schema of [a] and [required] true, then the
    descriptor of [b], with location ["query"], the schema of [b] and
    [required] false: these two are all that the body for [query] appends.
    Whatever [parse_params] appends after them comes from [headers] and
    [cookies] and has location ["header"] or ["cookie"], and when neither
    is attached nothing else is appended and the list is returned. *)
Theorem parse_params_query_fields (func : Callable)
    (params : list Descriptor) (models : gmap string ModelSchema)
    (obj : PyObj) (n : string) (m : ModelSchema) (a b : string)
    (sa sb : Json) :
  attrs func !! "query" = Some obj → dunder_name obj = Ok n →
  models !! n = Some m →
  properties m = Some [(a, sa); (b, sb)] →
  a ≠ b →
  (∀ x, x ∈ default [] (required_names m) ↔ x = a) →
  let appended :=
    [ {| name := a; in_ := "query"; schema := sa; required := true |};
      {| name := b; in_ := "query"; schema := sb; required := false |} ] in
  params_of func "query" "query" models params = (params ++ appended, Ok ())
  ∧ ∃ rest,
    (parse_params func params models).1 = (params ++ appended ++ rest)%list
    ∧ Forall (λ d, in_ d = "header" ∨ in_ d = "cookie") rest
    ∧ (∀ r, (parse_params func params models).2 = Ok r →
         r = (params ++ appended ++ rest)%list)
    ∧ (attrs func !! "headers" = None → attrs func !! "cookies" = None →
         rest = []
         ∧ (parse_params func params models).2 = Ok (params ++ appended)%list).
Proof.
  intros Hq Hn Hm Hp Hab Hreq appended.
  assert (descriptors "query" m [(a, sa); (b, sb)] = appended) as Hd.
  { unfold descriptors, appended, is_required. simpl.
    rewrite bool_decide_eq_true_2 by by apply Hreq.
    rewrite bool_decide_eq_false_2; [done|].
    intros Hb%Hreq. by apply Hab. }
  assert (params_of func "query" "query" models params
          = (params ++ appended, Ok ())) as Hbody.
  { rewrite <- Hd. by apply (params_of_registered _ _ _ _ _ obj n). }
  split; [done|].
  destruct (parse_params_after_query func params (params ++ appended) models
              Hbody) as (rest & Hst & Frest).
  rewrite <- app_assoc in Hst.
  exists rest. split; [done|]. split; [done|]. split.
  - intros r Hr. by rewrite (parse_params_returns_accumulator _ _ _ _ Hr).
  - intros Hh Hc.
    rewrite (parse_params_query_only _ _ _ obj n m _ Hq Hn Hm Hp Hh Hc) in *.
    rewrite Hd in *. simpl in Hst. split; [|done].
    apply app_inv_head in Hst. unfold appended in Hst.
    by injection Hst as <-.
Qed.

Lemma parse_params_query_fields_witness :
  parse_params (view [("query", PyClass "Query" true)]) [] registry
  = ([ {| name := "a"; in_ := "query"; schema := JStr "integer";
          required := true |};
       {| name := "b"; in_ := "query"; schema := JStr "string";
          required := false |} ],
     Ok [ {| name := "a"; in_ := "query"; schema := JStr "integer";
             required := true |};
          {| name := "b"; in_ := "query"; schema := JStr "string";
             required := false |} ]).
Proof.
  destruct (parse_params_query_fields
    (view [("query", PyClass "Query" true)]) [] registry
    (PyClass "Query" true) "Query"
    {| properties := Some [("a", JStr "integer"); ("b", JStr "string")];
       required_names := Some ["a"] |}
    "a" "b" (JStr "integer") (JStr "string"))
    as (_ & rest & Hst & _ & _ & Hrest); [reflexivity..|done| |].
  - intros x. simpl. by rewrite list_elem_of_singleton.
  - destruct Hrest as [-> Hret]; [reflexivity..|].
    apply injective_projections; [exact Hst|exact Hret].
Defined.

(** *** The order of the locations *)

Lemma precedes_app (loc1 loc2 : string) (l1 l2 : list Descriptor) :
  Forall (λ d, in_ d ≠ loc2) l1 → Forall (λ d, in_ d ≠ loc1) l2 →
  precedes loc1 loc2 (l1 ++ l2).
Proof.
  intros F1 F2 i j d1 d2 Hi Hj Hd1 Hd2.
  destruct (decide (i < length l1)%nat) as [Hlt|Hge].
  - destruct (decide (j < length l1)%nat) as [Hjlt|Hjge]; [|lia].
    rewrite lookup_app_l in Hj by done.
    apply list_elem_of_lookup_2 in Hj.
    rewrite Forall_forall in F1. by destruct (F1 d2 Hj).
  - rewrite lookup_app_r in Hi by lia.
    apply list_elem_of_lookup_2 in Hi.
    rewrite Forall_forall in F2. by destruct (F2 d1 Hi).
Qed.

Lemma descriptors_location (location : string) (m : ModelSchema)
    (props : list (string * Json)) :
  Forall (λ d, in_ d = location) (descriptors location m props).
Proof.
  unfold descriptors. apply Forall_map, Forall_forall. by intros [??] _.
Qed.

Lemma Forall_location_ne (loc loc' : string) (l : list Descriptor) :
  loc ≠ loc' → Forall (λ d, in_ d = loc) l → Forall (λ d, in_ d ≠ loc') l.
Proof.
  intros Hne F. eapply Forall_impl; [exact F|]. intros d Hd. by rewrite Hd.
Qed.

(** What the three bodies append, one after the other, is in order; so is
    the whole list when the accumulator had no [header] and no [cookie]
    descriptor to begin with. *)
Lemma location_order_blocks (params dq dh dc : list Descriptor) :
  Forall (λ d, in_ d ≠ "header" ∧ in_ d ≠ "cookie") params →
  Forall (λ d, in_ d = "query") dq →
  Forall (λ d, in_ d = "header") dh →
  Forall (λ d, in_ d = "cookie") dc →
  location_order (params ++ dq ++ dh ++ dc).
Proof.
  intros Fp Fq Fh Fc. split.
  - rewrite (app_assoc params). apply precedes_app.
    + apply Forall_app. split.
      * eapply Forall_impl; [exact Fp|]. by intros d [? _].
      * by apply (Forall_location_ne "query").
    + apply Forall_app. split.
      * by apply (Forall_location_ne "header").
      * by apply (Forall_location_ne "cookie").
  - rewrite (app_assoc dq), (app_assoc params). apply precedes_app.
    + apply Forall_app. split.
      * eapply Forall_impl; [exact Fp|]. by intros d [_ ?].
      * apply Forall_app. split.
        -- by apply (Forall_location_ne "query").
        -- by apply (Forall_location_ne "header").
    + by apply (Forall_location_ne "cookie").
Qed.

Lemma parse_params_all_registered (func : Callable)
    (params : list Descriptor) (models : gmap string ModelSchema)
    (oq oh oc : PyObj) (nq nh nc : string) (mq mh mc : ModelSchema)
    (pq ph pc : list (string * Json)) :
  attrs func !! "query" = Some oq → dunder_name oq = Ok nq →
  models !! nq = Some mq → properties mq = Some pq →
  attrs func !! "headers" = Some oh → dunder_name oh = Ok nh →
  models !! nh = Some mh → properties mh = Some ph →
  attrs func !! "cookies" = Some oc → dunder_name oc = Ok nc →
  models !! nc = Some mc → properties mc = Some pc →
  let returned :=
    params ++ descriptors "query" mq pq ++ descriptors "header" mh ph
           ++ descriptors "cookie" mc pc in
  parse_params func params models = (returned, Ok returned).
Proof.
  intros. rewrite parse_params_unfold.
  rewrite (params_of_registered _ "query" _ _ _ oq nq mq pq) by done.
  rewrite (params_of_registered _ "headers" _ _ _ oh nh mh ph) by done.
  rewrite (params_of_registered _ "cookies" _ _ _ oc nc mc pc) by done.
  subst returned. by rewrite <- !app_assoc.
Qed.

(** C4, as amended.  When [query], [headers] and [cookies] are attached and
    their models are registered, [parse_params] returns the accumulator
    followed by the descriptors of the query model, then those of the
    headers model, then those of the cookies model: among the appended
    descriptors every ["query"] one comes before every ["header"] one and
    every ["header"] one before every ["cookie"] one, and the same holds of
    the whole returned list when the accumulator passed in holds no
    ["header"] and no ["cookie"] descriptor, in particular when it is
    empty.  The view function is any one with the three attributes, so the
    order in which they were set plays no part. *)
Theorem parse_params_location_order (func : Callable)
    (params : list Descriptor) (models : gmap string ModelSchema)
    (oq oh oc : PyObj) (nq nh nc : string) (mq mh mc : ModelSchema)
    (pq ph pc : list (string * Json)) :
  attrs func !! "query" = Some oq → dunder_name oq = Ok nq →
  models !! nq = Some mq → properties mq = Some pq →
  attrs func !! "headers" = Some oh → dunder_name oh = Ok nh →
  models !! nh = Some mh → properties mh = Some ph →
  attrs func !! "cookies" = Some oc → dunder_name oc = Ok nc →
  models !! nc = Some mc → properties mc = Some pc →
  let appended :=
    descriptors "query" mq pq ++ descriptors "header" mh ph
      ++ descriptors "cookie" mc pc in
  parse_params func params models = (params ++ appended, Ok (params ++ appended))
  ∧ location_order appended
  ∧ (Forall (λ d, in_ d ≠ "header" ∧ in_ d ≠ "cookie") params →
     location_order (params ++ appended)).
Proof.
  intros Hq Hnq Hmq Hpq Hh Hnh Hmh Hph Hc Hnc Hmc Hpc appended.
  split; [|split].
  - by apply (parse_params_all_registered _ _ _ oq oh oc nq nh nc).
  - apply (location_order_blocks []); [constructor|..];
      apply descriptors_location.
  - intros Fp. apply location_order_blocks; [done|..];
      apply descriptors_location.
Qed.

(** A body that ends well on an attached object found its model. *)
Lemma params_of_ok (func : Callable) (attr location : string)
    (models : gmap string ModelSchema) (params params' : list Descriptor)
    (obj : PyObj) :
  params_of func attr location models params = (params', Ok ()) →
  attrs func !! attr = Some obj →
  ∃ n m props,
    dunder_name obj = Ok n ∧ models !! n = Some m ∧ properties m = Some props.
Proof.
  destruct (params_of_cases func attr location models params)
    as [?|o n m props ????|? ??|? ? ???|? ? ? ????];
    intros [= <-] Hobj; [congruence|].
  assert (o = obj) as -> by congruence. by exists n, m, props.
Qed.

(** [parse_params] returns only when every attached model is registered
    with its properties. *)
Lemma parse_params_returns_registered (func : Callable)
    (params r : list Descriptor) (models : gmap string ModelSchema)
    (attr : string) (obj : PyObj) :
  attr ∈ ["query"; "headers"; "cookies"] →
  attrs func !! attr = Some obj →
  (parse_params func params models).2 = Ok r →
  ∃ n m props,
    dunder_name obj = Ok n ∧ models !! n = Some m ∧ properties m = Some props.
Proof.
  intros Hattr Hobj. rewrite parse_params_unfold.
  destruct (params_of func "query" "query" models params)
    as [p1 [[]|?]] eqn:H1; [|done].
  destruct (params_of func "headers" "header" models p1)
    as [p2 [[]|?]] eqn:H2; [|done].
  destruct (params_of func "cookies" "cookie" models p2)
    as [p3 [[]|?]] eqn:H3; [|done].
  intros _.
  repeat (apply elem_of_cons in Hattr as [->|Hattr]).
  - by apply (params_of_ok func "query" "query" models params p1).
  - by apply (params_of_ok func "headers" "header" models p1 p2).
  - by apply (params_of_ok func "cookies" "cookie" models p2 p3).
  - by apply elem_of_nil in Hattr.
Qed.

Lemma parse_params_location_order_witness :
  (parse_params three_models [] registry).2
  = Ok [ {| name := "a"; in_ := "query"; schema := JStr "integer";
            required := true |};
         {| name := "b"; in_ := "query"; schema := JStr "string";
            required := false |};
         {| name := "lang"; in_ := "header"; schema := JStr "string";
            required := false |};
         {| name := "pub"; in_ := "cookie"; schema := JStr "string";
            required := true |} ]
  ∧ location_order
      [ {| name := "a"; in_ := "query"; schema := JStr "integer";
           required := true |};
        {| name := "b"; in_ := "query"; schema := JStr "string";
           required := false |};
        {| name := "lang"; in_ := "header"; schema := JStr "string";
           required := false |};
        {| name := "pub"; in_ := "cookie"; schema := JStr "string";
           required := true |} ].
Proof.
  destruct (parse_params_location_order three_models [] registry
    (PyClass "Query" true) (PyClass "Headers" true) (PyClass "Cookies" true)
    "Query" "Headers" "Cookies"
    {| properties := Some [("a", JStr "integer"); ("b", JStr "string")];
       required_names := Some ["a"] |}
    {| properties := Some [("lang", JStr "string")];
       required_names := None |}
    {| properties := Some [("pub", JStr "string")];
       required_names := Some ["pub"] |}
    [("a", JStr "integer"); ("b", JStr "string")]
    [("lang", JStr "string")] [("pub", JStr "string")])
    as (Hret & Hord & _); [reflexivity..|].
  split; [by rewrite Hret|exact Hord].
Defined.

(** C4, as stated, fails: with [query], [headers] and [cookies] attached
    and registered, [parse_params] returns a list in which the cookie
    descriptor found in the accumulator comes before the header descriptor
    it appends. *)
Lemma parse_params_location_order_counterexample :
  is_Some (attrs three_models !! "query")
  ∧ is_Some (attrs three_models !! "headers")
  ∧ is_Some (attrs three_models !! "cookies")
  ∧ ∃ returned,
      (parse_params three_models [session_cookie] registry).2 = Ok returned
      ∧ ¬ location_order returned.
Proof.
  repeat (split; [by eexists|]).
  eexists. split; [reflexivity|].
  intros [_ Hhc].
  specialize (Hhc 3%nat 0%nat
    {| name := "lang"; in_ := "header"; schema := JStr "string";
       required := false |}
    session_cookie eq_refl eq_refl eq_refl eq_refl).
  lia.
Qed.

(** *** A model that is not registered *)

(** How [parse_params] can raise: with the exception of the first body
    that raises, a [KeyError] unless an attached object has no
    [__name__]. *)
Lemma parse_params_raise (func : Callable) (params : list Descriptor)
    (models : gmap string ModelSchema) (e : exn) :
  (parse_params func params models).2 = Raise e →
  e = KeyError
  ∨ ∃ attr obj, attr ∈ ["query"; "headers"; "cookies"]
                ∧ attrs func !! attr = Some obj
                ∧ dunder_name obj = Raise AttributeError.
Proof.
  rewrite parse_params_unfold.
  destruct (params_of func "query" "query" models params)
    as [p1 [[]|e1]] eqn:H1.
  2: { intros [= ->]. apply params_of_raise in H1 as [_ [->|(o & ? & ?)]];
         [by left|right]. exists "query", o. set_solver. }
  destruct (params_of func "headers" "header" models p1)
    as [p2 [[]|e2]] eqn:H2.
  2: { intros [= ->]. apply params_of_raise in H2 as [_ [->|(o & ? & ?)]];
         [by left|right]. exists "headers", o. set_solver. }
  destruct (params_of func "cookies" "cookie" models p2)
    as [p3 [[]|e3]] eqn:H3; [done|].
  intros [= ->]. apply params_of_raise in H3 as [_ [->|(o & ? & ?)]];
    [by left|right]. exists "cookies", o. set_solver.
Qed.

(** C8.  When the model attached as [query], [headers] or [cookies] has a
    name that is not a key of the registry, [parse_params] raises: it
    returns no list, whatever else is attached; the exception is the
    [KeyError] of the lookup as soon as every attached object is a class. *)
Theorem parse_params_unregistered_raises (func : Callable)
    (params : list Descriptor) (models : gmap string ModelSchema)
    (attr : string) (obj : PyObj) (n : string) :
  attr ∈ ["query"; "headers"; "cookies"] →
  attrs func !! attr = Some obj → dunder_name obj = Ok n →
  models !! n = None →
  (∃ e, (parse_params func params models).2 = Raise e)
  ∧ (∀ r, (parse_params func params models).2 ≠ Ok r)
  ∧ ((∀ a o, a ∈ ["query"; "headers"; "cookies"] →
        attrs func !! a = Some o → ∃ n', dunder_name o = Ok n') →
     (parse_params func params models).2 = Raise KeyError).
Proof.
  intros Hattr Hobj Hname Hm.
  assert (∀ r, (parse_params func params models).2 ≠ Ok r) as Hnot.
  { intros r Hr.
    destruct (parse_params_returns_registered func params r models attr obj)
      as (n' & m & props & Hn' & Hm' & _); [done..|].
    congruence. }
  destruct ((parse_params func params models).2) as [r|e] eqn:Hout.
  { by destruct (Hnot r). }
  split; [by exists e|]. split; [done|].
  intros Hclasses. f_equal.
  destruct (parse_params_raise func params models e Hout)
    as [->|(a & o & Ha & Ho & Hno)]; [done|].
  destruct (Hclasses a o Ha Ho) as [n' Hn']. congruence.
Qed.

Lemma parse_params_unregistered_raises_witness :
  (parse_params
     (view [("query", PyClass "Query" true); ("headers", PyClass "Lost" true)])
     [] registry).2
  = Raise KeyError.
Proof.
  destruct (parse_params_unregistered_raises
    (view [("query", PyClass "Query" true); ("headers", PyClass "Lost" true)])
    [] registry "headers" (PyClass "Lost" true) "Lost")
    as (_ & _ & H); [set_solver|reflexivity..|].
  apply H. intros a o Ha.
  repeat (apply elem_of_cons in Ha as [->|Ha]);
    [intros [= <-]; by eexists..|by apply elem_of_nil in Ha].
Defined.

(** ** The default hooks *)

(** With a validation error the hooks log one record each, under their own
    message, and touch nothing else. *)
Lemma default_handlers_log {Req Resp Inst : Type} (req : Req) (resp : Resp)
    (instance : Inst) (log : list LogRecord) (n : string)
    (errs : list Json) :
  default_before_handler req resp (ErrValidation n errs) instance log
  = {| run_req := req; run_resp := resp;
       run_log := log ++ [{| msg := "Validation Error"; spectree_model := n;
                             spectree_validation := errs |}];
       run_outcome := Ok () |}
  ∧ default_after_handler req resp (ErrValidation n errs) instance log
  = {| run_req := req; run_resp := resp;
       run_log := log ++ [{| msg := "500 Response Validation Error";
                             spectree_model := n;
                             spectree_validation := errs |}];
       run_outcome := Ok () |}.
Proof. by split. Qed.

(** C9.  Called with [None] as validation error, [default_before_handler]
    and [default_after_handler] return without raising, leave the log as
    it was, and leave the request and the response as they were, for every
    request, response, instance and log. *)
Theorem default_handlers_absent_error {Req Resp Inst : Type} (req : Req)
    (resp : Resp) (instance : Inst) (log : list LogRecord) :
  default_before_handler req resp ErrNone instance log
  = {| run_req := req; run_resp := resp; run_log := log;
       run_outcome := Ok () |}
  ∧ default_after_handler req resp ErrNone instance log
  = {| run_req := req; run_resp := resp; run_log := log;
       run_outcome := Ok () |}.
Proof. by split. Qed.

(** ** [parse_multi_dict] *)

Lemma parse_multi_dict_lookup (input : MultiDict) (key : string) :
  parse_multi_dict input !! key = flatten_value <$> lists input !! key.
Proof.
  unfold parse_multi_dict, to_dict_flat_false. revert key.
  apply (map_fold_weak_ind
    (λ (result : gmap string Json) (d : gmap string (list Json)),
       ∀ key, result !! key = flatten_value <$> d !! key)).
  - intros key. by rewrite !lookup_empty.
  - intros k value d result _ IH key.
    destruct (decide (k = key)) as [->|Hne].
    + by rewrite !lookup_insert_eq.
    + by rewrite !lookup_insert_ne.
Qed.

Lemma flatten_value_lone (x : Json) : flatten_value [x] = x.
Proof. reflexivity. Qed.

Lemma flatten_value_many (value : list Json) :
  length value ≠ 1%nat → flatten_value value = JList value.
Proof.
  intros Hlen. unfold flatten_value.
  by destruct (Nat.eqb_spec (length value) 1).
Qed.

(** C6.  Every key of the container is a key of the result of
    [parse_multi_dict]; a key with exactly one value is mapped to that
    value and a key with two or more values to the list of its values, in
    their order; the result has no other key, and it is empty when the
    container is. *)
Theorem parse_multi_dict_flattens (input : MultiDict) :
  (∀ key values, lists input !! key = Some values →
     ∃ v, parse_multi_dict input !! key = Some v
          ∧ (∀ x, values = [x] → v = x)
          ∧ ((2 ≤ length values)%nat → v = JList values))
  ∧ (∀ key, lists input !! key = None → parse_multi_dict input !! key = None)
  ∧ (lists input = ∅ → parse_multi_dict input = ∅).
Proof.
  split; [|split].
  - intros key values Hkey. exists (flatten_value values).
    rewrite parse_multi_dict_lookup, Hkey. split; [done|]. split.
    + by intros x ->.
    + intros Hlen. apply flatten_value_many. lia.
  - intros key Hkey. by rewrite parse_multi_dict_lookup, Hkey.
  - intros Hempty. apply map_eq. intros key.
    by rewrite parse_multi_dict_lookup, Hempty, !lookup_empty.
Qed.

Lemma parse_multi_dict_flattens_witness :
  parse_multi_dict x_once_y_twice !! "x" = Some (JStr "1")
  ∧ parse_multi_dict x_once_y_twice !! "y"
    = Some (JList [JStr "1"; JStr "2"])
  ∧ parse_multi_dict {| lists := ∅ |} = ∅.
Proof.
  destruct (parse_multi_dict_flattens x_once_y_twice) as (Hin & _ & _).
  destruct (parse_multi_dict_flattens {| lists := ∅ |}) as (_ & _ & Hempty).
  split; [|split].
  - destruct (Hin "x" [JStr "1"]) as (v & -> & Hone & _); [reflexivity|].
    by rewrite (Hone (JStr "1")).
  - destruct (Hin "y" [JStr "1"; JStr "2"]) as (v & -> & _ & Hmany);
      [reflexivity|].
    rewrite Hmany; [done|simpl; lia].
  - by apply Hempty.
Defined.

(** * Further properties *)

(** ** [parse_params]: the accumulator *)

(** The body for one attribute, on any accumulator, in closed form. *)
Lemma params_of_closed (func : Callable) (attr location : string)
    (models : gmap string ModelSchema) (params : list Descriptor) :
  params_of func attr location models params
  = (params ++ appended_by func attr location models,
     (params_of func attr location models []).2).
Proof.
  unfold params_of, appended_by, hasattr, getattr.
  destruct (attrs func !! attr) as [obj|].
  - rewrite bool_decide_eq_true_2 by by eexists.
    unfold acc_bind, acc_lift, getitem, get_properties.
    destruct (dunder_name obj) as [n|e]; simpl; [|by rewrite app_nil_r].
    destruct (models !! n) as [m|]; simpl; [|by rewrite app_nil_r].
    destruct (properties m) as [props|]; simpl; [|by rewrite app_nil_r].
    by rewrite !append_each_run.
  - rewrite bool_decide_eq_false_2 by (by intros [? ?]).
    unfold acc_ret. simpl. by rewrite app_nil_r.
Qed.

Lemma appended_by_location (func : Callable) (attr location : string)
    (models : gmap string ModelSchema) :
  Forall (λ d, in_ d = location) (appended_by func attr location models).
Proof.
  unfold appended_by.
  destruct (attrs func !! attr) as [obj|]; [|constructor].
  destruct (dunder_name obj) as [n|e]; [|constructor].
  destruct (models !! n) as [m|]; [|constructor].
  apply descriptors_location.
Qed.

(** X1.  On any accumulator, [parse_params] leaves the accumulator it was
    given followed by what it leaves when started on the empty list, and
    ends the same way: it returns the whole list when it returns, and
    raises the same exception when it raises. *)
Theorem parse_params_any_accumulator (func : Callable)
    (params : list Descriptor) (models : gmap string ModelSchema) :
  parse_params func params models
  = (params ++ (parse_params func [] models).1,
     match (parse_params func [] models).2 with
     | Ok appended => Ok (params ++ appended)
     | Raise e => Raise e
     end).
Proof.
  rewrite !parse_params_unfold.
  rewrite (params_of_closed func "query" "query" models params).
  rewrite (params_of_closed func "query" "query" models []).
  destruct ((params_of func "query" "query" models []).2) as [[]|e1];
    simpl; [|done].
  set (aq := appended_by func "query" "query" models).
  rewrite (params_of_closed func "headers" "header" models (params ++ aq)).
  rewrite (params_of_closed func "headers" "header" models aq).
  destruct ((params_of func "headers" "header" models []).2) as [[]|e2];
    simpl; [|by rewrite app_assoc].
  set (ah := appended_by func "headers" "header" models).
  rewrite (params_of_closed func "cookies" "cookie" models
             ((params ++ aq) ++ ah)).
  rewrite (params_of_closed func "cookies" "cookie" models (aq ++ ah)).
  destruct ((params_of func "cookies" "cookie" models []).2) as [[]|e3];
    simpl; by rewrite !app_assoc.
Qed.

(** X2.  [parse_params] only appends: whether it returns or raises, the
    accumulator it leaves is the one it was given followed by new
    descriptors, each with location ["query"], ["header"] or ["cookie"];
    nothing that was in the accumulator is removed, changed or moved. *)
Theorem parse_params_only_appends (func : Callable)
    (params : list Descriptor) (models : gmap string ModelSchema) :
  ∃ new,
    (parse_params func params models).1 = params ++ new
    ∧ Forall (λ d, in_ d ∈ ["query"; "header"; "cookie"]) new
    ∧ ∀ i d, params !! i = Some d →
             (parse_params func params models).1 !! i = Some d.
Proof.
  assert (∃ new, (parse_params func params models).1 = params ++ new
                 ∧ Forall (λ d, in_ d ∈ ["query"; "header"; "cookie"]) new)
    as (new & Hst & Fnew).
  { rewrite parse_params_unfold.
    rewrite (params_of_closed func "query" "query" models params).
    pose proof (appended_by_location func "query" "query" models) as Fq.
    set (aq := appended_by func "query" "query" models) in *.
    assert (Forall (λ d, in_ d ∈ ["query"; "header"; "cookie"]) aq) as Fq'
      by (eapply Forall_impl; [exact Fq|]; intros d ->; set_solver).
    destruct ((params_of func "query" "query" models []).2) as [[]|e1];
      [|by exists aq].
    rewrite (params_of_closed func "headers" "header" models (params ++ aq)).
    pose proof (appended_by_location func "headers" "header" models) as Fh.
    set (ah := appended_by func "headers" "header" models) in *.
    assert (Forall (λ d, in_ d ∈ ["query"; "header"; "cookie"]) ah) as Fh'
      by (eapply Forall_impl; [exact Fh|]; intros d ->; set_solver).
    destruct ((params_of func "headers" "header" models []).2) as [[]|e2].
    2: { exists (aq ++ ah). split; [by rewrite app_assoc|].
         by apply Forall_app. }
    rewrite (params_of_closed func "cookies" "cookie" models
               ((params ++ aq) ++ ah)).
    pose proof (appended_by_location func "cookies" "cookie" models) as Fc.
    set (ac := appended_by func "cookies" "cookie" models) in *.
    assert (Forall (λ d, in_ d ∈ ["query"; "header"; "cookie"]) ac) as Fc'
      by (eapply Forall_impl; [exact Fc|]; intros d ->; set_solver).
    exists (aq ++ ah ++ ac).
    split; [|by repeat (apply Forall_app; split)].
    destruct ((params_of func "cookies" "cookie" models []).2) as [[]|e3];
      simpl; by rewrite !app_assoc. }
  exists new. split; [done|]. split; [done|].
  intros i d Hi. rewrite Hst. by apply lookup_app_l_Some.
Qed.

(** X3.  On a view function with none of [query], [headers] and [cookies]
    attached, [parse_params] returns the accumulator as it was given,
    whatever the registry holds. *)
Theorem parse_params_nothing_attached (func : Callable)
    (params : list Descriptor) (models : gmap string ModelSchema) :
  attrs func !! "query" = None → attrs func !! "headers" = None →
  attrs func !! "cookies" = None →
  parse_params func params models = (params, Ok params).
Proof.
  intros Hq Hh Hc. rewrite parse_params_unfold.
  by rewrite !params_of_absent.
Qed.

Lemma parse_params_nothing_attached_witness :
  parse_params body_only [session_cookie] registry
  = ([session_cookie], Ok [session_cookie]).
Proof.
  apply (parse_params_nothing_attached body_only [session_cookie] registry);
    reflexivity.
Defined.

(** ** [parse_params]: what is appended *)

(** The list returned, block by block. *)
Lemma parse_params_ok_appended (func : Callable)
    (params r : list Descriptor) (models : gmap string ModelSchema) :
  (parse_params func params models).2 = Ok r →
  r = params ++ appended_by func "query" "query" models
             ++ appended_by func "headers" "header" models
             ++ appended_by func "cookies" "cookie" models.
Proof.
  intros Hr. rewrite (parse_params_returns_accumulator _ _ _ _ Hr).
  revert Hr. rewrite parse_params_unfold.
  rewrite (params_of_closed func "query" "query" models params).
  destruct ((params_of func "query" "query" models []).2) as [[]|e1];
    [|done].
  rewrite (params_of_closed func "headers" "header" models).
  destruct ((params_of func "headers" "header" models []).2) as [[]|e2];
    [|done].
  rewrite (params_of_closed func "cookies" "cookie" models).
  destruct ((params_of func "cookies" "cookie" models []).2) as [[]|e3];
    [|done].
  intros _. simpl. by rewrite !app_assoc.
Qed.

(** X4.  When [parse_params] returns, the list it returns is the
    accumulator followed by the descriptors of the model attached as
    [query], then those of the model attached as [headers], then those of
    the model attached as [cookies], one per property and in the order of
    the properties; an attribute that is not set contributes nothing. *)
Theorem parse_params_returned_list (func : Callable)
    (params r : list Descriptor) (models : gmap string ModelSchema) :
  (parse_params func params models).2 = Ok r →
  r = params ++ appended_by func "query" "query" models
             ++ appended_by func "headers" "header" models
             ++ appended_by func "cookies" "cookie" models.
Proof. apply parse_params_ok_appended. Qed.

Lemma parse_params_returned_list_witness :
  [ {| name := "lang"; in_ := "header"; schema := JStr "string";
       required := false |} ]
  = [] ++ appended_by (view [("headers", PyClass "Headers" true)])
            "query" "query" registry
       ++ appended_by (view [("headers", PyClass "Headers" true)])
            "headers" "header" registry
       ++ appended_by (view [("headers", PyClass "Headers" true)])
            "cookies" "cookie" registry.
Proof.
  apply (parse_params_returned_list
           (view [("headers", PyClass "Headers" true)]) [] _ registry).
  reflexivity.
Defined.

Lemma elem_of_descriptors (location : string) (m : ModelSchema)
    (props : list (string * Json)) (n : string) (s : Json) :
  (n, s) ∈ props →
  {| name := n; in_ := location; schema := s; required := is_required m n |}
  ∈ descriptors location m props.
Proof.
  intros Hin. unfold descriptors. apply list_elem_of_fmap.
  by exists (n, s).
Qed.

Lemma appended_by_registered (func : Callable) (attr location : string)
    (models : gmap string ModelSchema) (obj : PyObj) (n : string)
    (m : ModelSchema) (props : list (string * Json)) :
  attrs func !! attr = Some obj → dunder_name obj = Ok n →
  models !! n = Some m → properties m = Some props →
  appended_by func attr location models = descriptors location m props.
Proof.
  intros Hattr Hname Hm Hprops. unfold appended_by.
  by rewrite Hattr, Hname, Hm, Hprops.
Qed.

(** X5.  There is no deduplication across locations: when the models
    attached as [query] and as [headers] both have a property named [n],
    the list [parse_params] returns holds a descriptor named [n] with
    location ["query"] and another one with location ["header"], each with
    the schema and the [required] flag of its own model. *)
Theorem parse_params_same_name_twice (func : Callable)
    (params r : list Descriptor) (models : gmap string ModelSchema)
    (oq oh : PyObj) (nq nh : string) (mq mh : ModelSchema)
    (pq ph : list (string * Json)) (n : string) (sq sh : Json) :
  attrs func !! "query" = Some oq → dunder_name oq = Ok nq →
  models !! nq = Some mq → properties mq = Some pq →
  attrs func !! "headers" = Some oh → dunder_name oh = Ok nh →
  models !! nh = Some mh → properties mh = Some ph →
  (n, sq) ∈ pq → (n, sh) ∈ ph →
  (parse_params func params models).2 = Ok r →
  {| name := n; in_ := "query"; schema := sq; required := is_required mq n |}
  ∈ r
  ∧ {| name := n; in_ := "header"; schema := sh;
       required := is_required mh n |} ∈ r.
Proof.
  intros Hq Hnq Hmq Hpq Hh Hnh Hmh Hph Hinq Hinh Hr.
  rewrite (parse_params_ok_appended _ _ _ _ Hr).
  rewrite (appended_by_registered _ "query" _ _ oq nq mq pq) by done.
  rewrite (appended_by_registered _ "headers" _ _ oh nh mh ph) by done.
  split.
  - apply elem_of_app. right. apply elem_of_app. left.
    by apply elem_of_descriptors.
  - apply elem_of_app. right. apply elem_of_app. right.
    apply elem_of_app. left. by apply elem_of_descriptors.
Qed.

Lemma parse_params_same_name_twice_witness :
  {| name := "lang"; in_ := "query"; schema := JStr "string";
     required := false |}
  ∈ [ {| name := "lang"; in_ := "query"; schema := JStr "string";
         required := false |};
      {| name := "page"; in_ := "query"; schema := JStr "integer";
         required := true |};
      {| name := "lang"; in_ := "header"; schema := JStr "string";
         required := false |} ]
  ∧ {| name := "lang"; in_ := "header"; schema := JStr "string";
       required := false |}
  ∈ [ {| name := "lang"; in_ := "query"; schema := JStr "string";
         required := false |};
      {| name := "page"; in_ := "query"; schema := JStr "integer";
         required := true |};
      {| name := "lang"; in_ := "header"; schema := JStr "string";
         required := false |} ].
Proof.
  apply (parse_params_same_name_twice
    (view [("query", PyClass "Query" true); ("headers", PyClass "Headers" true)])
    [] _ registry_lang
    (PyClass "Query" true) (PyClass "Headers" true) "Query" "Headers"
    {| properties := Some [("lang", JStr "string"); ("page", JStr "integer")];
       required_names := Some ["page"] |}
    {| properties := Some [("lang", JStr "string")];
       required_names := None |}
    [("lang", JStr "string"); ("page", JStr "integer")]
    [("lang", JStr "string")] "lang" (JStr "string") (JStr "string"));
    try reflexivity; set_solver.
Defined.

(** ** [parse_params]: exceptions *)

(** X6.  An exception does not undo what was appended before it: when the
    model attached as [query] is registered and the model attached as
    [headers] is not, [parse_params] raises [KeyError] and leaves in the
    accumulator the descriptors of the query model. *)
Theorem parse_params_raises_after_appending (func : Callable)
    (params : list Descriptor) (models : gmap string ModelSchema)
    (oq oh : PyObj) (nq nh : string) (mq : ModelSchema)
    (pq : list (string * Json)) :
  attrs func !! "query" = Some oq → dunder_name oq = Ok nq →
  models !! nq = Some mq → properties mq = Some pq →
  attrs func !! "headers" = Some oh → dunder_name oh = Ok nh →
  models !! nh = None →
  parse_params func params models
  = (params ++ descriptors "query" mq pq, Raise KeyError).
Proof.
  intros Hq Hnq Hmq Hpq Hh Hnh Hmh. rewrite parse_params_unfold.
  rewrite (params_of_registered _ "query" _ _ _ oq nq mq pq) by done.
  by rewrite (params_of_missing _ "headers" _ _ _ oh nh).
Qed.

Lemma parse_params_raises_after_appending_witness :
  parse_params
    (view [("query", PyClass "Query" true); ("headers", PyClass "Lost" true)])
    [] registry
  = ([ {| name := "a"; in_ := "query"; schema := JStr "integer";
          required := true |};
       {| name := "b"; in_ := "query"; schema := JStr "string";
          required := false |} ],
     Raise KeyError).
Proof.
  apply (parse_params_raises_after_appending
    (view [("query", PyClass "Query" true); ("headers", PyClass "Lost" true)])
    [] registry (PyClass "Query" true) (PyClass "Lost" true)
    "Query" "Lost"
    {| properties := Some [("a", JStr "integer"); ("b", JStr "string")];
       required_names := Some ["a"] |}
    [("a", JStr "integer"); ("b", JStr "string")]); reflexivity.
Defined.

(** X7.  A registered schema without the key [properties] is as fatal as
    a missing schema: when the model attached as [query], [headers] or
    [cookies] is registered with such a schema, [parse_params] raises and
    returns no list, and the exception is [KeyError] as soon as every
    attached object is a class. *)
Theorem parse_params_no_properties_raises (func : Callable)
    (params : list Descriptor) (models : gmap string ModelSchema)
    (attr : string) (obj : PyObj) (n : string) (m : ModelSchema) :
  attr ∈ ["query"; "headers"; "cookies"] →
  attrs func !! attr = Some obj → dunder_name obj = Ok n →
  models !! n = Some m → properties m = None →
  (∃ e, (parse_params func params models).2 = Raise e)
  ∧ ((∀ a o, a ∈ ["query"; "headers"; "cookies"] →
        attrs func !! a = Some o → ∃ n', dunder_name o = Ok n') →
     (parse_params func params models).2 = Raise KeyError).
Proof.
  intros Hattr Hobj Hname Hm Hprops.
  destruct ((parse_params func params models).2) as [r|e] eqn:Hout.
  { destruct (parse_params_returns_registered func params r models attr obj)
      as (n' & m' & props & Hn' & Hm' & Hp'); [done..|].
    congruence. }
  split; [by exists e|].
  intros Hclasses. f_equal.
  destruct (parse_params_raise func params models e Hout)
    as [->|(a & o & Ha & Ho & Hno)]; [done|].
  destruct (Hclasses a o Ha Ho) as [n' Hn']. congruence.
Qed.

Lemma parse_params_no_properties_raises_witness :
  (parse_params (view [("cookies", PyClass "Bare" true)]) [] registry_lang).2
  = Raise KeyError.
Proof.
  destruct (parse_params_no_properties_raises
    (view [("cookies", PyClass "Bare" true)]) [] registry_lang
    "cookies" (PyClass "Bare" true) "Bare"
    {| properties := None; required_names := None |})
    as (_ & H); [set_solver|reflexivity..|].
  apply H. intros a o Ha.
  repeat (apply elem_of_cons in Ha as [->|Ha]);
    [intros [= <-]; by eexists..|by apply elem_of_nil in Ha].
Defined.

Lemma params_of_raise_kind (func : Callable) (attr location : string)
    (models : gmap string ModelSchema) (params params' : list Descriptor)
    (e : exn) :
  params_of func attr location models params = (params', Raise e) →
  e = KeyError ∨ e = AttributeError.
Proof.
  destruct (params_of_cases func attr location models params);
    intros [= <-] || intros [= <- <-]; auto.
Qed.

(** X8.  [parse_params] raises nothing but [KeyError] and
    [AttributeError], and an [AttributeError] only when an object attached
    as [query], [headers] or [cookies] has no [__name__]. *)
Theorem parse_params_exceptions (func : Callable)
    (params : list Descriptor) (models : gmap string ModelSchema) (e : exn) :
  (parse_params func params models).2 = Raise e →
  (e = KeyError ∨ e = AttributeError)
  ∧ (e = AttributeError →
     ∃ attr obj, attr ∈ ["query"; "headers"; "cookies"]
                 ∧ attrs func !! attr = Some obj
                 ∧ dunder_name obj = Raise AttributeError).
Proof.
  intros Hout. split.
  - revert Hout. rewrite parse_params_unfold.
    destruct (params_of func "query" "query" models params)
      as [p1 [[]|e1]] eqn:H1;
      [|intros [= ->]; by eapply params_of_raise_kind].
    destruct (params_of func "headers" "header" models p1)
      as [p2 [[]|e2]] eqn:H2;
      [|intros [= ->]; by eapply params_of_raise_kind].
    destruct (params_of func "cookies" "cookie" models p2)
      as [p3 [[]|e3]] eqn:H3; [done|].
    intros [= ->]. by eapply params_of_raise_kind.
  - intros ->.
    by destruct (parse_params_raise func params models _ Hout).
Qed.

Lemma parse_params_exceptions_witness :
  (AttributeError = KeyError ∨ AttributeError = AttributeError)
  ∧ (AttributeError = AttributeError →
     ∃ attr obj, attr ∈ ["query"; "headers"; "cookies"]
                 ∧ attrs (view [("query", PyObject)]) !! attr = Some obj
                 ∧ dunder_name obj = Raise AttributeError).
Proof.
  apply (parse_params_exceptions (view [("query", PyObject)]) [] registry).
  reflexivity.
Defined.

(** X9.  When the object attached as [query] has no [__name__], as an
    instance of a model instead of the model class, [parse_params] raises
    [AttributeError] at once: nothing is appended, and [headers] and
    [cookies] are not looked at. *)
Theorem parse_params_query_without_name (func : Callable)
    (params : list Descriptor) (models : gmap string ModelSchema)
    (obj : PyObj) :
  attrs func !! "query" = Some obj →
  dunder_name obj = Raise AttributeError →
  parse_params func params models = (params, Raise AttributeError).
Proof.
  intros Hq Hname. rewrite parse_params_unfold.
  destruct (params_of_cases func "query" "query" models params);
    congruence.
Qed.

Lemma parse_params_query_without_name_witness :
  parse_params
    (view [("query", PyObject); ("headers", PyClass "Headers" true)])
    [session_cookie] registry
  = ([session_cookie], Raise AttributeError).
Proof.
  apply (parse_params_query_without_name
    (view [("query", PyObject); ("headers", PyClass "Headers" true)])
    [session_cookie] registry PyObject); reflexivity.
Defined.

(** ** [has_model] *)

Lemma any_attached (func : Callable) (names : list string) :
  existsb (hasattr func) names = true
  ↔ ∃ a, a ∈ names ∧ is_Some (attrs func !! a).
Proof.
  rewrite existsb_exists. split.
  - intros (a & Hin & Ha). exists a. split; [by apply list_elem_of_In|].
    apply hasattr_true in Ha as [obj Hobj]. by exists obj.
  - intros (a & Hin & [obj Hobj]). exists a.
    split; [by apply list_elem_of_In|by apply (hasattr_Some _ _ obj)].
Qed.

Lemma none_attached (func : Callable) (names : list string) :
  existsb (hasattr func) names = false
  ↔ ∀ a, a ∈ names → attrs func !! a = None.
Proof.
  split.
  - intros Hnone a Hin. destruct (attrs func !! a) as [obj|] eqn:Ha; [|done].
    assert (existsb (hasattr func) names = true) as Hsome
      by (apply any_attached; exists a; split; [done|by exists obj]).
    congruence.
  - intros Hnone. apply not_true_is_false. intros Hsome.
    apply any_attached in Hsome as (a & Hin & [obj Hobj]).
    rewrite (Hnone a Hin) in Hobj. done.
Qed.

(** When [has_model] answers [True] and when it raises. *)
Lemma has_model_iff (func : Callable) :
  (has_model func = Ok true
   ↔ (∃ a, a ∈ ["query"; "json"; "headers"] ∧ is_Some (attrs func !! a))
     ∨ (∃ resp, attrs func !! "resp" = Some resp
                ∧ obj_has_model resp = Ok true))
  ∧ (∀ e, has_model func = Raise e
     ↔ (∀ a, a ∈ ["query"; "json"; "headers"] → attrs func !! a = None)
       ∧ ∃ resp, attrs func !! "resp" = Some resp
                 ∧ obj_has_model resp = Raise e).
Proof.
  unfold has_model.
  destruct (existsb (hasattr func) ["query"; "json"; "headers"]) eqn:Hany.
  - pose proof (proj1 (any_attached _ _) Hany) as Hsome. split.
    + split; [by left|done].
    + intros e. split; [done|]. intros [Hnone _].
      apply none_attached in Hnone. congruence.
  - pose proof (proj1 (none_attached _ _) Hany) as Hnone.
    assert (¬ ∃ a, a ∈ ["query"; "json"; "headers"]
                   ∧ is_Some (attrs func !! a)) as Hno.
    { intros (a & Hin & [obj Hobj]). rewrite (Hnone a Hin) in Hobj. done. }
    unfold hasattr, getattr.
    destruct (attrs func !! "resp") as [resp|] eqn:Hresp.
    + rewrite bool_decide_eq_true_2 by by eexists. simpl.
      destruct (obj_has_model resp) as [[]|e'] eqn:Hm; simpl; split.
      * split; [|done]. intros _. right. by exists resp.
      * intros e. split; [done|]. intros [_ (r & [= <-] & Hr)]. congruence.
      * split; [done|]. intros [?|(r & [= <-] & Hr)]; [done|congruence].
      * intros e. split; [done|]. intros [_ (r & [= <-] & Hr)]. congruence.
      * split; [done|]. intros [?|(r & [= <-] & Hr)]; [done|congruence].
      * intros e. split.
        -- intros [= <-]. split; [done|]. by exists resp.
        -- intros [_ (r & [= <-] & Hr)]. congruence.
    + rewrite bool_decide_eq_false_2 by (by intros [? ?]). split.
      * split; [done|]. intros [?|(r & ? & _)]; [done|congruence].
      * intros e. split; [done|]. intros [_ (r & ? & _)]. congruence.
Qed.

(** X10.  [has_model] answers [True] exactly when [query], [json] or
    [headers] is attached, or [resp] is attached and its [has_model()]
    answers [True]; and it raises exactly when none of the three is
    attached and [resp] is attached to an object on which calling
    [has_model()] raises.  With one of the three attached, [resp] is not
    consulted at all. *)
Theorem has_model_cases (func : Callable) :
  (has_model func = Ok true
   ↔ (∃ a, a ∈ ["query"; "json"; "headers"] ∧ is_Some (attrs func !! a))
     ∨ (∃ resp, attrs func !! "resp" = Some resp
                ∧ obj_has_model resp = Ok true))
  ∧ (∀ e, has_model func = Raise e
     ↔ (∀ a, a ∈ ["query"; "json"; "headers"] → attrs func !! a = None)
       ∧ ∃ resp, attrs func !! "resp" = Some resp
                 ∧ obj_has_model resp = Raise e).
Proof. apply has_model_iff. Qed.

(** X11.  [has_model] and [parse_resp] read the attributes [query],
    [json], [headers] and [resp] and no other: two view functions that
    agree on these four get the same answers, whatever their [body],
    [cookies] or documentation. *)
Theorem parse_resp_reads_four_attributes (f g : Callable) (code : Z) :
  (∀ a, a ∈ resp_attributes → attrs f !! a = attrs g !! a) →
  has_model f = has_model g ∧ parse_resp f code = parse_resp g code.
Proof.
  intros Hagree.
  assert (attrs f !! "query" = attrs g !! "query") as Hq
    by (apply Hagree; set_solver).
  assert (attrs f !! "json" = attrs g !! "json") as Hj
    by (apply Hagree; set_solver).
  assert (attrs f !! "headers" = attrs g !! "headers") as Hh
    by (apply Hagree; set_solver).
  assert (attrs f !! "resp" = attrs g !! "resp") as Hr
    by (apply Hagree; set_solver).
  assert (has_model f = has_model g) as Hm.
  { unfold has_model, hasattr, getattr. simpl. by rewrite Hq, Hj, Hh, Hr. }
  split; [done|].
  unfold parse_resp, hasattr, getattr. by rewrite Hr, Hm.
Qed.

Lemma parse_resp_reads_four_attributes_witness :
  has_model (view [("query", PyClass "Query" true)])
  = has_model (view [("body", PyClass "Body" true);
                     ("query", PyClass "Query" true);
                     ("cookies", PyClass "Cookies" true)])
  ∧ parse_resp (view [("query", PyClass "Query" true)]) 422
    = parse_resp (view [("body", PyClass "Body" true);
                        ("query", PyClass "Query" true);
                        ("cookies", PyClass "Cookies" true)]) 422.
Proof.
  apply parse_resp_reads_four_attributes.
  intros a Ha. unfold resp_attributes in Ha.
  repeat (apply elem_of_cons in Ha as [->|Ha]);
    [reflexivity..|by apply elem_of_nil in Ha].
Defined.

(** ** [parse_resp] *)

(** An object that generates a spec also answers [has_model()]. *)
Lemma generate_spec_has_model (resp : PyObj) (spec : gmap string Json) :
  generate_spec resp = Ok spec → ∃ hm, obj_has_model resp = Ok hm.
Proof. destruct resp; intros [= <-] || intros [=]; by eexists. Qed.

Lemma has_model_returns (func : Callable) (resp : PyObj)
    (spec : gmap string Json) :
  attrs func !! "resp" = Some resp → generate_spec resp = Ok spec →
  ∃ b, has_model func = Ok b.
Proof.
  intros Hr Hs. destruct (has_model func) as [b|e] eqn:Hm; [by exists b|].
  apply (proj2 (has_model_iff func)) in Hm as [_ (r & Hr' & He)].
  assert (r = resp) as -> by congruence.
  destruct (generate_spec_has_model resp spec Hs) as [hm Hhm]. congruence.
Qed.

(** What [parse_resp] returns when [resp] generates [spec]: [spec] itself,
    or [spec] with the synthetic entry under a key it did not have. *)
Lemma parse_resp_with_resp (func : Callable) (code : Z) (resp : PyObj)
    (spec : gmap string Json) :
  attrs func !! "resp" = Some resp → generate_spec resp = Ok spec →
  parse_resp func code = Ok spec
  ∨ (spec !! str code = None
     ∧ parse_resp func code = Ok (<[str code := validation_error]> spec)).
Proof.
  intros Hr Hs.
  destruct (spec !! str code) as [entry|] eqn:He.
  - left. by apply (parse_resp_explicit _ _ resp _ entry).
  - destruct (has_model_returns func resp spec Hr Hs) as [[] Hm].
    + right. split; [done|]. by apply (parse_resp_synthetic _ _ resp).
    + left. unfold parse_resp.
      rewrite (hasattr_Some _ _ _ Hr), (getattr_Some _ _ _ Hr). simpl.
      rewrite Hs. simpl.
      rewrite He, bool_decide_eq_false_2 by (by intros [? ?]).
      by rewrite Hm.
Qed.

(** X12.  [parse_resp] never drops or changes what [resp] generates: every
    entry of the generated map is in the returned map, unchanged, and the
    returned map has the same entry as the generated map under every key
    but [str(code)]; in particular under [str(code')] for every other
    status code [code']. *)
Theorem parse_resp_keeps_generated (func : Callable) (code : Z)
    (resp : PyObj) (spec : gmap string Json) :
  attrs func !! "resp" = Some resp → generate_spec resp = Ok spec →
  ∃ responses,
    parse_resp func code = Ok responses
    ∧ spec ⊆ responses
    ∧ (∀ key, key ≠ str code → responses !! key = spec !! key)
    ∧ (∀ code', code' ≠ code → responses !! str code' = spec !! str code').
Proof.
  intros Hr Hs.
  assert (∀ code', code' ≠ code → str code' ≠ str code) as Hinj.
  { intros code' Hne Heq. apply Hne. unfold str in Heq.
    by apply (inj pretty) in Heq. }
  destruct (parse_resp_with_resp func code resp spec Hr Hs)
    as [Hret|[He Hret]].
  - exists spec. repeat split; done.
  - exists (<[str code := validation_error]> spec). split; [done|].
    split; [by apply insert_subseteq|]. split.
    + intros key Hkey. by rewrite lookup_insert_ne.
    + intros code' Hne. rewrite lookup_insert_ne; [done|].
      intros Heq. by apply (Hinj code' Hne).
Qed.

Lemma parse_resp_keeps_generated_witness :
  ∃ responses,
    parse_resp (view [("query", PyClass "Query" true); ("resp", resp_200)]) 422
    = Ok responses
    ∧ {["200" := ok_entry]} ⊆ responses
    ∧ (∀ key, key ≠ str 422 →
         responses !! key = ({["200" := ok_entry]} : gmap string Json) !! key)
    ∧ (∀ code', code' ≠ 422 →
         responses !! str code'
         = ({["200" := ok_entry]} : gmap string Json) !! str code').
Proof.
  apply (parse_resp_keeps_generated
    (view [("query", PyClass "Query" true); ("resp", resp_200)]) 422
    resp_200); reflexivity.
Defined.


(** X14.  Without [query], [json] and [headers], it is the response
    container that decides: when [resp] generates no entry for
    [str(code)], [parse_resp] adds the ["Validation Error"] entry if the
    container's [has_model()] answers [True], and returns the generated
    map as it is if it answers [False]. *)
Theorem parse_resp_container_decides (func : Callable) (code : Z)
    (resp : PyObj) (spec : gmap string Json) (hm : bool) :
  attrs func !! "query" = None → attrs func !! "json" = None →
  attrs func !! "headers" = None →
  attrs func !! "resp" = Some resp →
  generate_spec resp = Ok spec → obj_has_model resp = Ok hm →
  spec !! str code = None →
  parse_resp func code
  = Ok (if hm then <[str code := validation_error]> spec else spec).
Proof.
  intros Hq Hj Hh Hr Hs Hm He.
  assert (has_model func = Ok hm) as Hhas.
  { unfold has_model. simpl. rewrite !hasattr_None by done. simpl.
    rewrite (hasattr_Some _ _ _ Hr), (getattr_Some _ _ _ Hr). simpl.
    rewrite Hm. simpl. by destruct hm. }
  unfold parse_resp.
  rewrite (hasattr_Some _ _ _ Hr), (getattr_Some _ _ _ Hr). simpl.
  rewrite Hs. simpl.
  rewrite He, bool_decide_eq_false_2 by (by intros [? ?]).
  rewrite Hhas. simpl. by destruct hm.
Qed.

Lemma parse_resp_container_decides_witness :
  parse_resp (view [("resp", resp_200)]) 422
  = Ok (<["422" := validation_error]> {["200" := ok_entry]})
  ∧ parse_resp (view [("resp", PyResponse {["200" := ok_entry]} false)]) 422
    = Ok {["200" := ok_entry]}.
Proof.
  split.
  - apply (parse_resp_container_decides (view [("resp", resp_200)]) 422
             resp_200 {["200" := ok_entry]} true); reflexivity.
  - apply (parse_resp_container_decides
             (view [("resp", PyResponse {["200" := ok_entry]} false)]) 422
             (PyResponse {["200" := ok_entry]} false)
             {["200" := ok_entry]} false); reflexivity.
Defined.

(** X15.  Without [resp], [parse_resp] returns the map with the single
    entry ["Validation Error"] under [str(code)] when [query], [json] or
    [headers] is attached, and the empty map otherwise. *)
Theorem parse_resp_without_resp (func : Callable) (code : Z) :
  attrs func !! "resp" = None →
  ((∃ a, a ∈ ["query"; "json"; "headers"] ∧ is_Some (attrs func !! a)) →
   parse_resp func code = Ok {[str code := validation_error]})
  ∧ ((∀ a, a ∈ ["query"; "json"; "headers"] → attrs func !! a = None) →
     parse_resp func code = Ok ∅).
Proof.
  intros Hr. unfold parse_resp. rewrite (hasattr_None _ _ Hr). simpl.
  rewrite lookup_empty, bool_decide_eq_false_2 by (by intros [? ?]).
  split.
  - intros Hsome.
    assert (has_model func = Ok true) as ->
      by (apply (proj1 (has_model_iff func)); by left).
    done.
  - intros Hnone. apply none_attached in Hnone.
    unfold has_model. rewrite Hnone, (hasattr_None _ _ Hr). done.
Qed.

Lemma parse_resp_without_resp_witness :
  parse_resp (view [("headers", PyClass "Headers" true)]) 422
  = Ok {["422" := validation_error]}
  ∧ parse_resp body_only 422 = Ok ∅.
Proof.
  split.
  - destruct (parse_resp_without_resp
                (view [("headers", PyClass "Headers" true)]) 422)
      as [H _]; [reflexivity|].
    apply H. exists "headers". split; [set_solver|by eexists].
  - destruct (parse_resp_without_resp body_only 422) as [_ H];
      [reflexivity|].
    apply H. intros a Ha.
    repeat (apply elem_of_cons in Ha as [->|Ha]);
      [reflexivity..|by apply elem_of_nil in Ha].
Defined.

(** ** [parse_request] *)

Section RequestFurther.

Variable Request_generate_spec : string → gmap string Json.


(** X17.  What [parse_request] returns: the empty mapping without [body];
    what the attached object generates when it is an instance of
    [RequestBase], whatever its [has_model()] answers; what the default
    adapter generates for a model class; the empty mapping for a class
    that is not a model. *)
Theorem parse_request_returns_iff (func : Callable)
    (spec : gmap string Json) :
  parse_request Request_generate_spec func = Ok spec
  ↔ (attrs func !! "body" = None ∧ spec = ∅)
    ∨ (∃ hm, attrs func !! "body" = Some (PyRequestBase spec hm))
    ∨ (∃ n, attrs func !! "body" = Some (PyClass n true)
            ∧ spec = Request_generate_spec n)
    ∨ (∃ n, attrs func !! "body" = Some (PyClass n false) ∧ spec = ∅).
Proof.
  unfold parse_request, hasattr.
  destruct (attrs func !! "body") as [obj|] eqn:Hb.
  - rewrite bool_decide_eq_true_2 by by eexists. simpl.
    destruct obj as [|n bm|s hm|s hm|]; simpl.
    + split; [done|]. intros [[? _]|[[? ?]|[(? & ? & _)|(? & ? & _)]]]; done.
    + destruct bm; simpl.
      * split.
        -- intros [= <-]. right. right. left. by exists n.
        -- intros [[? _]|[[? ?]|[(? & [= <-] & ->)|(? & ? & _)]]]; done.
      * split.
        -- intros [= <-]. right. right. right. by exists n.
        -- intros [[? _]|[[? ?]|[(? & ? & _)|(? & [= <-] & ->)]]]; done.
    + split.
      * intros [= <-]. right. left. by exists hm.
      * intros [[? _]|[[? [= <- _]]|[(? & ? & _)|(? & ? & _)]]]; done.
    + split; [done|]. intros [[? _]|[[? ?]|[(? & ? & _)|(? & ? & _)]]]; done.
    + split; [done|]. intros [[? _]|[[? ?]|[(? & ? & _)|(? & ? & _)]]]; done.
  - rewrite bool_decide_eq_false_2 by (by intros [? ?]). split.
    + intros [= <-]. by left.
    + intros [[_ ->]|[[? ?]|[(? & ? & _)|(? & ? & _)]]]; done.
Qed.

End RequestFurther.

(** ** [parse_comments] *)

(** [split("\n", 1)] cuts the text at its first line feed and loses
    nothing but that line feed. *)
Lemma split_nl_1_inv (s before : string) (after : option string) :
  split_nl_1 s = (before, after) →
  (newline ∉ chars before)
  ∧ s = match after with
        | None => before
        | Some rest => before +:+ String newline rest
        end.
Proof.
  revert before after. induction s as [|c s IH]; intros before after; simpl.
  - intros [= <- <-]. split; [apply not_elem_of_nil|done].
  - destruct (Ascii.eqb_spec c newline) as [->|Hc].
    + intros [= <- <-]. split; [apply not_elem_of_nil|done].
    + destruct (split_nl_1 s) as [b a] eqn:Hs. intros [= <- <-].
      destruct (IH b a eq_refl) as [Hnl Heq]. split.
      * apply not_elem_of_cons. by split.
      * rewrite Heq at 1. by destruct a.
Qed.

(** X18.  When the function is documented, the summary [parse_comments]
    returns has no line feed and is the beginning of the text, kept as it
    is, white space included: the text is the summary alone when there is
    no description, and otherwise the summary, a line feed, and a
    remainder of which the description is the stripped form. *)
Theorem parse_comments_summary (func : Callable) (doc : string) :
  getdoc func = Some doc →
  ∃ summary,
    (parse_comments func).1 = Some summary
    ∧ (newline ∉ chars summary)
    ∧ (((parse_comments func).2 = None ∧ doc = summary)
       ∨ ∃ rest, (parse_comments func).2 = Some (strip rest)
                 ∧ doc = summary +:+ String newline rest).
Proof.
  intros Hdoc. unfold parse_comments. rewrite Hdoc.
  destruct (split_nl_1 doc) as [summary [rest|]] eqn:Hs;
    destruct (split_nl_1_inv _ _ _ Hs) as [Hnl Heq];
    exists summary; simpl; (split; [done|]); (split; [done|]).
  - right. by exists rest.
  - by left.
Qed.

Lemma parse_comments_summary_witness :
  ∃ summary,
    (parse_comments
       (documented (Some ("Title  " +:+ String newline " More. ")))).1
    = Some summary
    ∧ (newline ∉ chars summary)
    ∧ (((parse_comments
           (documented (Some ("Title  " +:+ String newline " More. ")))).2
        = None
        ∧ "Title  " +:+ String newline " More. " = summary)
       ∨ ∃ rest,
           (parse_comments
              (documented (Some ("Title  " +:+ String newline " More. ")))).2
           = Some (strip rest)
           ∧ "Title  " +:+ String newline " More. "
             = summary +:+ String newline rest).
Proof.
  apply (parse_comments_summary
    (documented (Some ("Title  " +:+ String newline " More. ")))).
  reflexivity.
Defined.

Lemma lstrip_all_space (s : string) : all_space s → lstrip s = "".
Proof.
  induction s as [|c s IH]; [done|].
  intros [Hc Hs]%Forall_cons. simpl. rewrite Hc. by apply IH.
Qed.

(** X19.  A remainder made of white space only gives the empty
    description, not an absent one: when the text is a summary, a line
    feed and nothing but white space, [parse_comments] returns the summary
    and the empty string. *)
Theorem parse_comments_blank_description (func : Callable)
    (summary rest : string) :
  getdoc func = Some (summary +:+ String newline rest) →
  newline ∉ chars summary →
  all_space rest →
  parse_comments func = (Some summary, Some "").
Proof.
  intros Hdoc Hnl Hrest. unfold parse_comments.
  rewrite Hdoc, split_nl_1_some by done.
  unfold strip. by rewrite lstrip_all_space.
Qed.

Lemma parse_comments_blank_description_witness :
  parse_comments (documented (Some ("Title" +:+ String newline "  ")))
  = (Some "Title", Some "").
Proof.
  apply (parse_comments_blank_description
    (documented (Some ("Title" +:+ String newline "  "))) "Title" "  ").
  - reflexivity.
  - vm_compute. intros Hin.
    repeat (apply elem_of_cons in Hin as [Hin|Hin]; [discriminate Hin|]).
    by apply elem_of_nil in Hin.
  - repeat (apply Forall_cons; split; [reflexivity|]). apply Forall_nil.
    done.
Defined.

(** ** The default hooks *)

(** X20.  Whatever the validation-error argument, the default hooks leave
    the request and the response as they were and never remove or change
    a log record: with a validation error they add one record carrying
    their message, the name of the model and the list of errors; with
    [None], or with any other object that counts as false, they add
    nothing and return. *)
Theorem default_handlers_frame {Req Resp Inst : Type} (req : Req)
    (resp : Resp) (err : ErrArg) (instance : Inst) (log : list LogRecord) :
  let before := default_before_handler req resp err instance log in
  let after := default_after_handler req resp err instance log in
  run_req before = req ∧ run_resp before = resp
  ∧ run_req after = req ∧ run_resp after = resp
  ∧ (∀ n errs, err = ErrValidation n errs →
       run_log before
       = log ++ [{| msg := "Validation Error"; spectree_model := n;
                    spectree_validation := errs |}]
       ∧ run_log after
         = log ++ [{| msg := "500 Response Validation Error";
                      spectree_model := n; spectree_validation := errs |}]
       ∧ run_outcome before = Ok () ∧ run_outcome after = Ok ())
  ∧ ((∀ n errs, err ≠ ErrValidation n errs) →
       run_log before = log ∧ run_log after = log)
  ∧ (truthy err = false →
       run_outcome before = Ok () ∧ run_outcome after = Ok ()).
Proof.
  intros before after. subst before after.
  destruct err as [| |n errs|]; simpl; repeat split; try done;
    try congruence.
  all: match goal with
       | H : ∀ _ _, _ ≠ _ |- _ => by destruct (H n errs)
       end.
Qed.

(** ** [parse_multi_dict] *)

Lemma parse_multi_dict_fmap (input : MultiDict) :
  parse_multi_dict input = flatten_value <$> lists input.
Proof.
  apply map_eq. intros key.
  by rewrite parse_multi_dict_lookup, lookup_fmap.
Qed.

(** X21.  [parse_multi_dict] works key by key: setting the values of one
    key in the container sets that key in the result and changes no other
    key, removing a key from the container removes it from the result,
    and the result has exactly the keys of the container. *)
Theorem parse_multi_dict_key_by_key (d : gmap string (list Json))
    (key : string) (values : list Json) :
  parse_multi_dict {| lists := <[key := values]> d |}
  = <[key := flatten_value values]> (parse_multi_dict {| lists := d |})
  ∧ parse_multi_dict {| lists := delete key d |}
    = delete key (parse_multi_dict {| lists := d |})
  ∧ dom (parse_multi_dict {| lists := d |}) = dom d.
Proof.
  rewrite !parse_multi_dict_fmap. simpl. split; [|split].
  - by rewrite fmap_insert.
  - by rewrite fmap_delete.
  - by rewrite dom_fmap_L.
Qed.

Lemma flatten_value_scalars_inj (l1 l2 : list Json) :
  Forall scalar l1 → Forall scalar l2 →
  flatten_value l1 = flatten_value l2 → l1 = l2.
Proof.
  intros F1 F2. unfold flatten_value.
  destruct (Nat.eqb_spec (length l1) 1) as [H1|H1];
    destruct (Nat.eqb_spec (length l2) 1) as [H2|H2].
  - destruct l1 as [|x [|??]]; try done.
    destruct l2 as [|y [|??]]; try done. simpl. by intros ->.
  - destruct l1 as [|x [|??]]; try done. simpl. intros ->.
    by apply Forall_cons in F1 as [? _].
  - destruct l2 as [|y [|??]]; try done. simpl. intros <-.
    by apply Forall_cons in F2 as [? _].
  - by intros [= ->].
Qed.

(** X22.  On containers whose values are scalars, as the strings of a
    query string are, [parse_multi_dict] loses nothing: two such
    containers with the same result are the same container. *)
Theorem parse_multi_dict_scalars_inj (input1 input2 : MultiDict) :
  scalar_values input1 → scalar_values input2 →
  parse_multi_dict input1 = parse_multi_dict input2 →
  lists input1 = lists input2.
Proof.
  intros S1 S2 Heq. apply map_eq. intros key.
  pose proof (f_equal (λ m : gmap string Json, m !! key) Heq) as Hkey.
  simpl in Hkey. rewrite !parse_multi_dict_lookup in Hkey.
  destruct (lists input1 !! key) as [l1|] eqn:H1;
    destruct (lists input2 !! key) as [l2|] eqn:H2; simpl in Hkey;
    try done.
  f_equal. injection Hkey as Hflat.
  by apply flatten_value_scalars_inj; [apply (S1 key)|apply (S2 key)|].
Qed.

Lemma parse_multi_dict_scalars_inj_witness :
  lists x_once_y_twice = lists x_once_y_twice.
Proof.
  assert (scalar_values x_once_y_twice) as Hs.
  { intros key values. unfold x_once_y_twice. simpl.
    intros [[_ <-]|[_ [[_ <-]|[_ H]]%lookup_insert_Some]]%lookup_insert_Some.
    - repeat constructor.
    - repeat constructor.
    - by rewrite lookup_empty in H. }
  apply (parse_multi_dict_scalars_inj x_once_y_twice x_once_y_twice Hs Hs).
  reflexivity.
Defined.

(** X23.  A single value that is itself a list is taken for several
    values: a key whose only value is the list [l], of length other than
    one, gets the same result as a key whose values are the elements of
    [l]. *)
Theorem parse_multi_dict_list_value (d : gmap string (list Json))
    (key : string) (l : list Json) :
  length l ≠ 1%nat →
  parse_multi_dict {| lists := <[key := [JList l]]> d |}
  = parse_multi_dict {| lists := <[key := l]> d |}.
Proof.
  intros Hlen. rewrite !parse_multi_dict_fmap. simpl.
  rewrite !fmap_insert. f_equal.
  by rewrite flatten_value_lone, flatten_value_many.
Qed.

Lemma parse_multi_dict_list_value_witness :
  parse_multi_dict {| lists := {["y" := [JList [JStr "1"; JStr "2"]]]} |}
  = parse_multi_dict {| lists := {["y" := [JStr "1"; JStr "2"]]} |}.
Proof.
  apply (parse_multi_dict_list_value ∅ "y" [JStr "1"; JStr "2"]).
  simpl. lia.
Defined.

(** X24.  A key with no value at all is kept, with the empty list as its
    value. *)
Theorem parse_multi_dict_no_value (input : MultiDict) (key : string) :
  lists input !! key = Some [] →
  parse_multi_dict input !! key = Some (JList []).
Proof. intros Hkey. by rewrite parse_multi_dict_lookup, Hkey. Qed.

Lemma parse_multi_dict_no_value_witness :
  parse_multi_dict {| lists := {["x" := []]} |} !! "x" = Some (JList []).
Proof.
  apply (parse_multi_dict_no_value {| lists := {["x" := []]} |} "x").
  reflexivity.
Defined.

(** ** [parse_params]: one model, any number of properties *)

Lemma descriptors_fields (location : string) (m : ModelSchema)
    (props : list (string * Json)) :
  name <$> descriptors location m props = props.*1
  ∧ schema <$> descriptors location m props = props.*2
  ∧ required <$> descriptors location m props
    = (λ n, bool_decide (n ∈ default [] (required_names m))) <$> props.*1.
Proof.
  unfold descriptors. induction props as [|[n s] props (IH1 & IH2 & IH3)];
    [done|].
  repeat split; simpl; f_equal; assumption.
Qed.

(** X25.  When only [query] is attached and its model is registered,
    [parse_params] returns the accumulator followed by one descriptor per
    property of the model: their names are the property names and their
    schemas the property schemas, in the order of the properties, their
    location is ["query"], and a descriptor is required exactly when its
    name is in the list under [required], so none is when the schema has
    no such key. *)
Theorem parse_params_query_model_in_order (func : Callable)
    (params : list Descriptor) (models : gmap string ModelSchema)
    (obj : PyObj) (n : string) (m : ModelSchema)
    (props : list (string * Json)) :
  attrs func !! "query" = Some obj → dunder_name obj = Ok n →
  models !! n = Some m → properties m = Some props →
  attrs func !! "headers" = None → attrs func !! "cookies" = None →
  ∃ new,
    parse_params func params models = (params ++ new, Ok (params ++ new))
    ∧ name <$> new = props.*1
    ∧ schema <$> new = props.*2
    ∧ Forall (λ d, in_ d = "query") new
    ∧ Forall (λ d, required d = true
                   ↔ name d ∈ default [] (required_names m)) new
    ∧ (required_names m = None → Forall (λ d, required d = false) new).
Proof.
  intros Hq Hn Hm Hp Hh Hc. exists (descriptors "query" m props).
  destruct (descriptors_fields "query" m props) as (Hnames & Hschemas & _).
  split; [by apply (parse_params_query_only _ _ _ obj n)|].
  split; [done|]. split; [done|]. split; [apply descriptors_location|].
  assert (Forall (λ d, required d = true
                       ↔ name d ∈ default [] (required_names m))
            (descriptors "query" m props)) as Hreq.
  { unfold descriptors. apply Forall_map, Forall_forall.
    intros [x s] _. simpl. unfold is_required. apply bool_decide_eq_true. }
  split; [done|].
  intros Hnone. eapply Forall_impl; [exact Hreq|].
  intros d Hd. rewrite Hnone in Hd. simpl in Hd.
  apply not_true_is_false. intros Htrue%Hd. by apply elem_of_nil in Htrue.
Qed.

Lemma parse_params_query_model_in_order_witness :
  ∃ new,
    parse_params (view [("query", PyClass "Query" true)]) [session_cookie]
      registry_lang
    = ([session_cookie] ++ new, Ok ([session_cookie] ++ new))
    ∧ name <$> new = ["lang"; "page"]
    ∧ schema <$> new = [JStr "string"; JStr "integer"]
    ∧ Forall (λ d, in_ d = "query") new
    ∧ Forall (λ d, required d = true ↔ name d ∈ ["page"]) new
    ∧ (Some ["page"] = None → Forall (λ d, required d = false) new).
Proof.
  apply (parse_params_query_model_in_order
    (view [("query", PyClass "Query" true)]) [session_cookie] registry_lang
    (PyClass "Query" true) "Query"
    {| properties := Some [("lang", JStr "string"); ("page", JStr "integer")];
       required_names := Some ["page"] |}
    [("lang", JStr "string"); ("page", JStr "integer")]); reflexivity.
Defined.
